(** * Startup Success Factors dashboard (EDA.py): derived tables and control flow

    The script loads one CSV file into a dataframe, derives a few tables from
    it (value counts, survival rate per category, days to first funding,
    lifespan, heat-map cell counts) and hands them to chart constructors.

    Conventions of the embedding:
    - a dataframe is the list of its rows, in row order;
    - a cell of an object column is [option string], [None] being NaN;
    - a datetime64 cell is [option Z], nanoseconds since the epoch, [None]
      being NaT;
    - a float64 cell is a [float64]: an exact rational, an infinity or NaN.
      Rounding and overflow of binary64 arithmetic are not represented:
      finite results are the exact quotients, products and sums. *)

From Stdlib Require Import List ZArith QArith Qround String Bool Lia Lqa Sorted Permutation.
Import ListNotations.
Open Scope string_scope.
Open Scope list_scope.

(** ** float64 values *)

Inductive float64 : Type :=
| Finite (q : Q)
| Inf (negative : bool)
| NaN.

Definition of_int (n : Z) : float64 := Finite (inject_Z n).
Definition of_count (n : nat) : float64 := of_int (Z.of_nat n).

Definition fneg (x : float64) : float64 :=
  match x with
  | Finite q => Finite (- q)
  | Inf s => Inf (negb s)
  | NaN => NaN
  end.

Definition fadd (x y : float64) : float64 :=
  match x, y with
  | NaN, _ | _, NaN => NaN
  | Finite a, Finite b => Finite (a + b)
  | Finite _, Inf s | Inf s, Finite _ => Inf s
  | Inf s, Inf t => if Bool.eqb s t then Inf s else NaN
  end.

Definition fsub (x y : float64) : float64 := fadd x (fneg y).

Definition fmul (x y : float64) : float64 :=
  match x, y with
  | NaN, _ | _, NaN => NaN
  | Finite a, Finite b => Finite (a * b)
  | Finite a, Inf s | Inf s, Finite a =>
      match (a ?= 0)%Q with
      | Eq => NaN
      | Gt => Inf s
      | Lt => Inf (negb s)
      end
  | Inf s, Inf t => Inf (xorb s t)
  end.

(** True division of two float64 arrays never raises: a zero divisor gives an
    infinity, or NaN for 0/0. *)
Definition fdiv (x y : float64) : float64 :=
  match x, y with
  | NaN, _ | _, NaN => NaN
  | Finite a, Finite b =>
      match (b ?= 0)%Q with
      | Eq => match (a ?= 0)%Q with
              | Eq => NaN
              | Gt => Inf false
              | Lt => Inf true
              end
      | _ => Finite (a / b)
      end
  | Finite _, Inf _ => Finite 0
  | Inf s, Finite b => match (b ?= 0)%Q with Lt => Inf (negb s) | _ => Inf s end
  | Inf _, Inf _ => NaN
  end.

(** Comparisons are false as soon as one side is NaN. *)
Definition fle (x y : float64) : bool :=
  match x, y with
  | NaN, _ | _, NaN => false
  | Finite a, Finite b => Qle_bool a b
  | Inf true, _ => true
  | _, Inf false => true
  | _, _ => false
  end.

Definition is_finite (x : float64) : bool :=
  match x with Finite _ => true | _ => false end.

(** [x] is the finite number [q]. *)
Definition finite_eqb (x : float64) (q : Q) : bool :=
  match x with
  | Finite v => Qeq_bool v q
  | _ => false
  end.

Definition all_finite (l : list float64) : Prop :=
  Forall (fun x => is_finite x = true) l.

Definition fillna (v x : float64) : float64 :=
  match x with NaN => v | _ => x end.

(** ** The dataframe operations the script calls *)

Module Pd.

Fixpoint dropna {A : Type} (l : list (option A)) : list A :=
  match l with
  | [] => []
  | Some a :: t => a :: dropna t
  | None :: t => dropna t
  end.

Section Keys.
Context {K : Type} (eqb : K -> K -> bool).

Definition count (k : K) (l : list K) : nat :=
  List.length (filter (eqb k) l).

(** Distinct values in order of first appearance. *)
Fixpoint unique (l : list K) : list K :=
  match l with
  | [] => []
  | x :: t => x :: filter (fun y => negb (eqb x y)) (unique t)
  end.
End Keys.

Section Sorting.
Context {A : Type} (leb : A -> A -> bool).

Fixpoint insert (x : A) (l : list A) : list A :=
  match l with
  | [] => [x]
  | y :: t => if leb x y then x :: l else y :: insert x t
  end.

(** Sorting by a key. The sort is stable: of two elements that compare
    equal, the one that comes first in the input comes first in the output
    (the library does not fix the order of ties for every sort it runs; no
    property below depends on it). *)
Fixpoint sort (l : list A) : list A :=
  match l with
  | [] => []
  | x :: t => insert x (sort t)
  end.
End Sorting.

Definition by_count_desc (a b : string * nat) : bool := (snd b <=? snd a)%nat.

(** [Series.value_counts()]: one entry per distinct non-null value, most
    frequent first. *)
Definition value_counts (col : list (option string)) : list (string * nat) :=
  let vals := dropna col in
  sort by_count_desc
    (map (fun k => (k, count String.eqb k vals)) (unique String.eqb vals)).

(** [Series.nlargest(n)] on a counts series. *)
Definition nlargest (n : nat) (s : list (string * nat)) : list (string * nat) :=
  firstn n (sort by_count_desc s).

Definition index (s : list (string * nat)) : list string := map fst s.

(** [Series.isin(values)]; a NaN cell is in no list of strings. *)
Definition isin (values : list string) (cell : option string) : bool :=
  match cell with
  | Some v => existsb (String.eqb v) values
  | None => false
  end.

(** [series == value]; NaN equals nothing. *)
Definition eq_str (cell : option string) (value : string) : bool :=
  match cell with
  | Some v => String.eqb v value
  | None => false
  end.

(** [pd.merge(left, right, on=key, how='left')] for a two-column left and a
    two-column right frame: every left row once per matching right row, and
    once with NaN when nothing matches. *)
Definition merge_left (left right : list (string * nat))
  : list (string * nat * float64) :=
  flat_map
    (fun l =>
       match filter (fun r => String.eqb (fst r) (fst l)) right with
       | [] => [(fst l, snd l, NaN)]
       | ms => map (fun r => (fst l, snd l, of_count (snd r))) ms
       end)
    left.

(** [df.groupby(key)]: one group per distinct non-null key, keys in
    ascending order, each group holding its rows in frame order. *)
Definition groupby {K R : Type} (eqb leb : K -> K -> bool)
  (key : R -> option K) (rows : list R) : list (K * list R) :=
  map (fun k =>
         (k, filter (fun r => match key r with
                              | Some k' => eqb k' k
                              | None => false
                              end) rows))
      (sort leb (unique eqb (dropna (map key rows)))).

Definition is_nan (x : float64) : bool :=
  match x with NaN => true | _ => false end.

Definition notna (l : list float64) : list float64 :=
  filter (fun x => negb (is_nan x)) l.

(** [Series.quantile(q)] with the default linear interpolation, on the
    non-null values; NaN on an empty series. *)
Definition quantile (q : Q) (col : list float64) : float64 :=
  match notna col with
  | [] => NaN
  | v =>
      let s := sort fle v in
      let n := List.length s in
      let pos := (q * inject_Z (Z.of_nat (n - 1)))%Q in
      let lo := Z.to_nat (Qfloor pos) in
      let frac := (pos - inject_Z (Qfloor pos))%Q in
      let hi := Nat.min (lo + 1) (n - 1) in
      let v_lo := nth lo s NaN in
      let v_hi := nth hi s NaN in
      fadd v_lo (fmul (fsub v_hi v_lo) (Finite frac))
  end.

(** [Series.max()]: NaN entries are skipped, NaN on an empty series. *)
Definition fmax2 (x y : float64) : float64 :=
  match x, y with
  | NaN, _ => y
  | _, NaN => x
  | _, _ => if fle x y then y else x
  end.

Definition max (l : list float64) : float64 := fold_right fmax2 NaN l.

(** [Series.mean()]: the mean of the non-null values, NaN when there is none. *)
Definition mean (col : list float64) : float64 :=
  match notna col with
  | [] => NaN
  | v => fdiv (fold_right fadd (Finite 0) v) (of_count (List.length v))
  end.

End Pd.

(** ** Columns of finite numbers *)

(** The finite entries of a float64 column, as rationals. *)
Definition finite_values (l : list float64) : list Q :=
  flat_map (fun x => match x with Finite q => [q] | _ => [] end) l.

(** The interpolation step of [Pd.quantile] on an ascending list of
    rationals. *)
Definition interpolate (q : Q) (s : list Q) : Q :=
  let n := List.length s in
  let pos := (q * inject_Z (Z.of_nat (n - 1)))%Q in
  let lo := Z.to_nat (Qfloor pos) in
  let frac := (pos - inject_Z (Qfloor pos))%Q in
  let hi := Nat.min (lo + 1) (n - 1) in
  (nth lo s 0 + (nth hi s 0 - nth lo s 0) * frac)%Q.

(** [lo <= x <= hi] on float64 values. *)
Definition in_range (rg : float64 * float64) (x : float64) : bool :=
  fle (fst rg) x && fle x (snd rg).

(** ** The script *)

Module EDA.

(** A record of the CSV file as [pd.read_csv] returns it. *)
Record CsvRecord : Type := {
  csv_name : option string;
  csv_status : option string;
  csv_category : option string;
  csv_country_code : option string;
  csv_founded_at : option string;
  csv_first_funding_at : option string;
  csv_last_funding_at : option string;
  csv_funding_total_usd : float64;
  csv_funding_rounds : float64
}.

(** A row of [df] once [load_data] has converted the dates and added its two
    columns. *)
Record Row : Type := {
  name : option string;
  status : option string;
  category : option string;
  country_code : option string;
  founded_at : option Z;
  first_funding_at : option Z;
  last_funding_at : option Z;
  funding_total_usd : float64;
  funding_rounds : float64;
  founded_year : option Z;
  lifespan_days : option Z
}.

Definition DataFrame : Type := list Row.

Inductive exn : Type :=
| FileNotFoundError
| PermissionError
| IsADirectoryError
| EmptyDataError
| ParserError
| UnicodeDecodeError
| ValueError
| OverflowError.

Inductive result (A : Type) : Type :=
| Return (a : A)
| Raise (e : exn).
Arguments Return {A} a.
Arguments Raise {A} e.

Definition ns_per_day : Z := 86400000000000.

(** [(a - b).dt.days]: the whole days of the difference, rounded down; NaN
    when either timestamp is NaT. *)
Definition days_between (a b : option Z) : option Z :=
  match a, b with
  | Some x, Some y => Some ((x - y) / ns_per_day)%Z
  | _, _ => None
  end.

(** Gregorian year of a day number counted from 1970-01-01. *)
Definition year_of_days (d : Z) : Z :=
  (let z := d + 719468 in
   let era := z / 146097 in
   let doe := z - era * 146097 in
   let yoe := (doe - doe / 1460 + doe / 36524 - doe / 146096) / 365 in
   let doy := doe - (365 * yoe + yoe / 4 - yoe / 100) in
   let mp := (5 * doy + 2) / 153 in
   let m := if mp <? 10 then mp + 3 else mp - 9 in
   let y := yoe + era * 400 in
   if m <=? 2 then y + 1 else y)%Z.

(** [series.dt.year] *)
Definition dt_year (t : option Z) : option Z :=
  option_map (fun ns => year_of_days (ns / ns_per_day)%Z) t.

Section Script.

(** [pd.to_datetime(text, errors='coerce')] on one cell: the parser of the
    dataframe library, NaT for text it does not read as a date. *)
Variable to_datetime : string -> option Z.

Definition coerce_datetime (cell : option string) : option Z :=
  match cell with
  | Some text => to_datetime text
  | None => None
  end.

(** The body of the [try] block after the file has been read. *)
Definition preprocess (r : CsvRecord) : Row :=
  let founded := coerce_datetime (csv_founded_at r) in
  let first_funding := coerce_datetime (csv_first_funding_at r) in
  let last_funding := coerce_datetime (csv_last_funding_at r) in
  {| name := csv_name r;
     status := csv_status r;
     category := csv_category r;
     country_code := csv_country_code r;
     founded_at := founded;
     first_funding_at := first_funding;
     last_funding_at := last_funding;
     funding_total_usd := csv_funding_total_usd r;
     funding_rounds := csv_funding_rounds r;
     founded_year := dt_year founded;
     lifespan_days := days_between last_funding founded |}.

(** [load_data]: [file] is what [pd.read_csv] does on
    'data/processed/processed_startups_data.csv', either the records read or
    the exception raised. Only [FileNotFoundError] is handled. *)
Definition load_data (file : result (list CsvRecord)) : result (option DataFrame) :=
  match file with
  | Return records => Return (Some (map preprocess records))
  | Raise FileNotFoundError => Return None
  | Raise e => Raise e
  end.

(** *** Univariate analysis *)

Definition status_counts (df : DataFrame) : list (string * nat) :=
  Pd.value_counts (map status df).

Definition top_cats (df : DataFrame) : list (string * nat) :=
  Pd.nlargest 15 (Pd.value_counts (map category df)).

(** *** Location analysis and time trends *)

Definition top_countries_list (df : DataFrame) : list string :=
  Pd.index (Pd.nlargest 10 (Pd.value_counts (map country_code df))).

Definition df_top_countries (df : DataFrame) : DataFrame :=
  filter (fun r => Pd.isin (top_countries_list df) (country_code r)) df.

Definition funding_trend (df : DataFrame) : list (Z * float64) :=
  let means :=
    map (fun g => (fst g, Pd.mean (map funding_total_usd (snd g))))
        (Pd.groupby Z.eqb Z.leb founded_year df) in
  filter (fun m => (1990 <=? fst m)%Z && (fst m <=? 2023)%Z) means.

(** *** Survival rates *)

Definition category_totals (df : DataFrame) : list (string * nat) :=
  Pd.value_counts (map category df).

Definition operating_counts (df : DataFrame) : list (string * nat) :=
  Pd.value_counts
    (map category (filter (fun r => Pd.eq_str (status r) "operating") df)).

Record SurvivalRow : Type := {
  Category : string;
  Total_Startups : nat;
  Operating_Count : float64;
  Survival_Rate : float64
}.

Definition survival_row (m : string * nat * float64) : SurvivalRow :=
  let operating := fillna (of_int 0) (snd m) in
  {| Category := fst (fst m);
     Total_Startups := snd (fst m);
     Operating_Count := operating;
     Survival_Rate :=
       fmul (fdiv operating (of_count (snd (fst m)))) (of_int 100) |}.

Definition survival_df (df : DataFrame) : list SurvivalRow :=
  map survival_row (Pd.merge_left (category_totals df) (operating_counts df)).

(** Ascending order of a float64 column, NaN last. *)
Definition fle_nan_last (x y : float64) : bool :=
  match x, y with
  | _, NaN => true
  | NaN, _ => false
  | _, _ => fle x y
  end.

Definition top_30_categories (df : DataFrame) : list SurvivalRow :=
  let largest :=
    firstn 30
      (Pd.sort (fun a b => (Total_Startups b <=? Total_Startups a)%nat)
         (survival_df df)) in
  Pd.sort (fun a b => fle_nan_last (Survival_Rate a) (Survival_Rate b)) largest.

(** *** Speed to funding *)

Definition target_statuses : list string :=
  ["operating"; "acquired"; "ipo"; "closed"].

Record TimingRow : Type := {
  timing_row : Row;
  days_to_first_funding : option Z
}.

Definition with_days_to_first_funding (r : Row) : TimingRow :=
  {| timing_row := r;
     days_to_first_funding := days_between (first_funding_at r) (founded_at r) |}.

(** [column >= 0]; false on NaN. *)
Definition ge0 (cell : option Z) : bool :=
  match cell with
  | Some d => (0 <=? d)%Z
  | None => false
  end.

Definition df_timing (df : DataFrame) : list TimingRow :=
  let selected := filter (fun r => Pd.isin target_statuses (status r)) df in
  filter (fun t => ge0 (days_to_first_funding t))
    (map with_days_to_first_funding selected).

(** *** Lifespan *)

(** [column > 0]; false on NaN. *)
Definition gt0 (cell : option Z) : bool :=
  match cell with
  | Some d => (0 <? d)%Z
  | None => false
  end.

Definition of_days (cell : option Z) : float64 :=
  match cell with
  | Some d => of_int d
  | None => NaN
  end.

Record LifeRow : Type := {
  life_row : Row;
  lifespan_years : float64
}.

Definition with_lifespan_years (r : Row) : LifeRow :=
  {| life_row := r;
     lifespan_years := fdiv (of_days (lifespan_days r)) (of_int 365) |}.

Definition df_life (df : DataFrame) : list LifeRow :=
  map with_lifespan_years (filter (fun r => gt0 (lifespan_days r)) df).

(** The status column of [df_life]. *)
Definition life_status (l : LifeRow) : option string := status (life_row l).

Definition Series : Type := list (string * float64).

(** Element-wise operation on two series that carry the same index. *)
Definition series_map2 (f : float64 -> float64 -> float64) (a b : Series) : Series :=
  map (fun xy => (fst (fst xy), f (snd (fst xy)) (snd (snd xy)))) (combine a b).

Definition series_scale (c : float64) (a : Series) : Series :=
  map (fun x => (fst x, fmul c (snd x))) a.

Definition grouped_quantile (q : Q) (life : list LifeRow) : Series :=
  map (fun g => (fst g, Pd.quantile q (map lifespan_years (snd g))))
      (Pd.groupby String.eqb String.leb life_status life).

Definition upper_fences (life : list LifeRow) : Series :=
  let Q1 := grouped_quantile (1 # 4) life in
  let Q3 := grouped_quantile (3 # 4) life in
  let IQR := series_map2 fsub Q3 Q1 in
  series_map2 fadd Q3 (series_scale (Finite (3 # 2)) IQR).

Definition zoom_limit (life : list LifeRow) : float64 :=
  let max_limit := Pd.max (map snd (upper_fences life)) in
  fadd max_limit (of_int 1).

(** The y-axis settings that the script passes to [update_layout]. *)
Record YAxis : Type := {
  yaxis_autorange : option bool;
  yaxis_type : option string;
  yaxis_range : option (float64 * float64)
}.

Definition lifespan_yaxis (show_outliers : bool) (life : list LifeRow) : YAxis :=
  if show_outliers
  then {| yaxis_autorange := Some true; yaxis_type := None; yaxis_range := None |}
  else {| yaxis_autorange := None;
          yaxis_type := Some "linear";
          yaxis_range := Some (of_int 0, zoom_limit life) |}.

(** *** Heat map, sunburst, facets *)

Definition top_countries (df : DataFrame) : list string :=
  Pd.index (Pd.nlargest 10 (Pd.value_counts (map country_code df))).

Definition top_categories (df : DataFrame) : list string :=
  Pd.index (Pd.nlargest 10 (Pd.value_counts (map category df))).

Definition df_heatmap (df : DataFrame) : DataFrame :=
  filter (fun r => Pd.isin (top_countries df) (country_code r)
                   && Pd.isin (top_categories df) (category r)) df.

Definition cell_key (r : Row) : option (string * string) :=
  match country_code r, category r with
  | Some c, Some k => Some (c, k)
  | _, _ => None
  end.

Definition pair_eqb (a b : string * string) : bool :=
  String.eqb (fst a) (fst b) && String.eqb (snd a) (snd b).

Definition pair_leb (a b : string * string) : bool :=
  String.ltb (fst a) (fst b)
  || (String.eqb (fst a) (fst b) && String.leb (snd a) (snd b)).

(** [df_heatmap.groupby(['country_code', 'category']).size()] *)
Definition counts (heat : DataFrame) : list (string * string * nat) :=
  map (fun g => (fst g, List.length (snd g)))
      (Pd.groupby pair_eqb pair_leb cell_key heat).

Definition z_max (heat : DataFrame) : float64 :=
  Pd.quantile (95 # 100) (map (fun c => of_count (snd c)) (counts heat)).

Definition top_15_cats (df : DataFrame) : list string :=
  Pd.index (Pd.nlargest 15 (Pd.value_counts (map category df))).

Definition df_sunburst (df : DataFrame) : DataFrame :=
  filter (fun r => Pd.isin (top_15_cats df) (category r)) df.

Definition target_industries : list string :=
  ["Technology"; "Health & Biotechnology"; "E-Commerce & Retail";
   "Media & Entertainment"].

Definition df_facet (df : DataFrame) : DataFrame :=
  filter (fun r => Pd.isin target_industries (category r)) df.

(** *** What the page shows *)

Inductive Figure : Type :=
| fig_status (data : list (string * nat))
| fig_rounds (data : DataFrame)
| fig_cat (data : list (string * nat))
| fig_fund (data : DataFrame)
| fig_box (data : DataFrame)
| fig_country (data : DataFrame)
| fig_line (data : list (Z * float64))
| fig_survival (data : list SurvivalRow)
| fig_timing (data : list TimingRow)
| fig_lifespan (data : list LifeRow) (yaxis : YAxis)
| fig_money_time (data : list LifeRow)
| fig_heatmap (data : DataFrame) (range_color : float64 * float64)
| fig_sun (data : DataFrame)
| fig_facet (data : DataFrame)
| fig_scatter (data : DataFrame).

(** One element per call that puts something on the page. *)
Inductive Element : Type :=
| st_title (text : string)
| st_header (text : string)
| st_subheader (text : string)
| st_markdown
| st_error (text : string)
| st_dataframe (head : DataFrame)
| st_plotly_chart (fig : Figure)
| st_caption
| st_caption_cap (cap : Z)
| st_success (text : string).

Inductive Outcome : Type :=
| Completed
| Stopped
| Uncaught (e : exn).

(** The two checkboxes of the page. *)
Record Widgets : Type := {
  show_raw_data_preview : bool;
  show_outliers : bool
}.

(** [int(x)] on a float *)
Definition int_of_float (x : float64) : result Z :=
  match x with
  | Finite q => Return (Z.quot (Qnum q) (Zpos (Qden q)))
  | Inf _ => Raise OverflowError
  | NaN => Raise ValueError
  end.

Definition preview (w : Widgets) (df : DataFrame) : list Element :=
  if show_raw_data_preview w then [st_dataframe (firstn 5 df)] else [].

Definition univariate (df : DataFrame) : list Element :=
  [ st_header "1. Univariate Analysis";
    st_subheader "Distribution of Startup Status";
    st_plotly_chart (fig_status (status_counts df));
    st_subheader "Distribution of Funding Rounds";
    st_plotly_chart (fig_rounds df);
    st_subheader "Top 15 Startup Categories";
    st_plotly_chart (fig_cat (top_cats df));
    st_subheader "Total Funding Distribution (Log Scale)";
    st_plotly_chart (fig_fund df) ].

Definition bivariate (w : Widgets) (df : DataFrame) : list Element :=
  [ st_header "2. Bivariate Analysis: What Drives Success?";
    st_subheader "Does More Money Mean Success?";
    st_plotly_chart (fig_box df);
    st_markdown;
    st_subheader "Startup Hubs: Top Countries";
    st_plotly_chart (fig_country (df_top_countries df));
    st_subheader "Funding Trends Over Time";
    st_plotly_chart (fig_line (funding_trend df));
    st_subheader "Which Industries Stay in the Market?";
    st_plotly_chart (fig_survival (top_30_categories df));
    st_subheader "How long does it take to get the first check?";
    st_plotly_chart (fig_timing (df_timing df));
    st_subheader "Lifecycle: Time Active in Market";
    st_plotly_chart
      (fig_lifespan (df_life df) (lifespan_yaxis (show_outliers w) (df_life df)));
    st_markdown;
    st_subheader "Does surviving longer cost more money?";
    st_plotly_chart (fig_money_time (df_life df));
    st_caption ].

Definition investment_map (df : DataFrame) : list Element :=
  [ st_header "3. Multivariate Analysis";
    st_markdown;
    st_subheader "Innovation Hotspots: Country vs. Industry";
    st_plotly_chart
      (fig_heatmap (df_heatmap df) (of_int 0, z_max (df_heatmap df))) ].

Definition after_investment_map (df : DataFrame) : list Element :=
  [ st_subheader "Where does the money live?";
    st_plotly_chart (fig_sun (df_sunburst df));
    st_subheader "Funding Trajectories by Industry";
    st_plotly_chart (fig_facet (df_facet df));
    st_subheader "Funding Rounds vs. Total Funding vs. Status";
    st_plotly_chart (fig_scatter df);
    st_success "Dashboard Analysis Complete!" ].

(** Everything below the missing-file check. The chart constructors are
    taken to return a figure; of the script's own steps, [int(z_max)] in the
    heat-map caption raises when z_max is NaN or infinite, and what follows
    it is then not run. *)
Definition analyses (w : Widgets) (df : DataFrame) : list Element * Outcome :=
  let shown := preview w df ++ univariate df ++ bivariate w df ++ investment_map df in
  match int_of_float (z_max (df_heatmap df)) with
  | Raise e => (shown, Uncaught e)
  | Return cap =>
      (shown ++ st_caption_cap cap :: after_investment_map df, Completed)
  end.

Definition banner : list Element :=
  [ st_title "Startup Success Factors: Explanatory Data Analysis"; st_markdown ].

Definition not_found_message : string :=
  "File 'processed_startups_data.csv' not found! Please place the file in the same directory as this script.".

(** One run of the script. *)
Definition script (file : result (list CsvRecord)) (w : Widgets)
  : list Element * Outcome :=
  match load_data file with
  | Raise e => (banner, Uncaught e)
  | Return None => (banner ++ [st_error not_found_message], Stopped)
  | Return (Some df) =>
      (banner ++ fst (analyses w df), snd (analyses w df))
  end.

(** *** Quantities the specification speaks of *)

(** Number of rows of the frame whose cell in one column is [v]. *)
Definition rows_with (field : Row -> option string) (v : string) (df : DataFrame)
  : nat :=
  List.length (filter (fun r => Pd.eq_str (field r) v) df).

Definition rows_in_category (c : string) (df : DataFrame) : nat :=
  rows_with category c df.

(** Number of rows of the frame whose category is [c] and whose status is
    'operating'. *)
Definition operating_in_category (c : string) (df : DataFrame) : nat :=
  List.length
    (filter (fun r => Pd.eq_str (category r) c && Pd.eq_str (status r) "operating")
       df).

(** The lifespan values of the rows of one status. *)
Definition status_group (s : string) (life : list LifeRow) : list float64 :=
  map lifespan_years (filter (fun l => Pd.eq_str (life_status l) s) life).

(** Upper fence Q3 + 1.5 * (Q3 - Q1) of one status. *)
Definition upper_fence (s : string) (life : list LifeRow) : float64 :=
  let Q1 := Pd.quantile (1 # 4) (status_group s life) in
  let Q3 := Pd.quantile (3 # 4) (status_group s life) in
  fadd Q3 (fmul (Finite (3 # 2)) (fsub Q3 Q1)).

(** [top] holds the [n] most frequent values of a column (all of them when
    there are fewer than [n]): no value twice, only values of the column, and
    no value left out occurs in more rows than a value kept. *)
Definition most_frequent (n : nat) (field : Row -> option string) (df : DataFrame)
  (top : list string) : Prop :=
  NoDup top /\
  List.length top
  = Nat.min n (List.length (Pd.unique String.eqb (Pd.dropna (map field df)))) /\
  (forall v, In v top -> exists r, In r df /\ field r = Some v) /\
  (forall v v', In v top -> (exists r, In r df /\ field r = Some v') ->
                ~ In v' top -> (rows_with field v' df <= rows_with field v df)%nat).


(** A page element with the y-axis settings of the lifespan figure blanked. *)
Definition blank_yaxis : YAxis :=
  {| yaxis_autorange := None; yaxis_type := None; yaxis_range := None |}.

Definition without_lifespan_yaxis (e : Element) : Element :=
  match e with
  | st_plotly_chart (fig_lifespan data _) =>
      st_plotly_chart (fig_lifespan data blank_yaxis)
  | _ => e
  end.

Definition with_show_outliers (b : bool) (w : Widgets) : Widgets :=
  {| show_raw_data_preview := show_raw_data_preview w; show_outliers := b |}.

Definition with_raw_data_preview (b : bool) (w : Widgets) : Widgets :=
  {| show_raw_data_preview := b; show_outliers := show_outliers w |}.

Definition charts (page : list Element) : list Figure :=
  flat_map (fun e => match e with st_plotly_chart f => [f] | _ => [] end) page.

(** The row was founded in year [y]. *)
Definition founded_in (y : Z) (r : Row) : bool :=
  match founded_year r with
  | Some k => Z.eqb k y
  | None => false
  end.

(** The row has a value in an object column. *)
Definition has_value (field : Row -> option string) (r : Row) : bool :=
  match field r with
  | Some _ => true
  | None => false
  end.

(** [fig_survival.update_layout(xaxis_range=[0, 110])] *)
Definition survival_xaxis_range : float64 * float64 := (of_int 0, of_int 110).

End Script.

End EDA.

(** ** A small data file, used to run the definitions *)

Module Sample.

Definition day (n : Z) : option Z := Some (n * EDA.ns_per_day)%Z.

(** A date parser that reads the six dates of the sample file. *)
Definition to_datetime (text : string) : option Z :=
  if String.eqb text "2009-01-01" then day 14245
  else if String.eqb text "2010-01-01" then day 14610
  else if String.eqb text "2011-01-01" then day 14975
  else if String.eqb text "2012-01-01" then day 15340
  else if String.eqb text "2013-01-01" then day 15706
  else if String.eqb text "2015-01-01" then day 16436
  else None.

Definition record (nm : string) (st cat country : option string)
  (founded first_funding last_funding : string) (usd : float64) (rounds : Z)
  : EDA.CsvRecord :=
  {| EDA.csv_name := Some nm;
     EDA.csv_status := st;
     EDA.csv_category := cat;
     EDA.csv_country_code := country;
     EDA.csv_founded_at := Some founded;
     EDA.csv_first_funding_at := Some first_funding;
     EDA.csv_last_funding_at := Some last_funding;
     EDA.csv_funding_total_usd := usd;
     EDA.csv_funding_rounds := of_int rounds |}.

Definition records : list EDA.CsvRecord :=
  [ record "Alpha" (Some "operating") (Some "Technology") (Some "USA")
      "2010-01-01" "2011-01-01" "2013-01-01" (of_int 1000000) 2;
    record "Beta" (Some "closed") (Some "Technology") (Some "USA")
      "2010-01-01" "2009-01-01" "2009-01-01" (of_int 50000) 1;
    record "Gamma" (Some "acquired") (Some "Health") (Some "GBR")
      "2009-01-01" "2010-01-01" "2015-01-01" (of_int 2500000) 3;
    record "Delta" (Some "operating") (Some "Health") None
      "not a date" "2012-01-01" "2013-01-01" NaN 1;
    record "Epsilon" None None (Some "USA")
      "2011-01-01" "2011-01-01" "2011-01-01" (of_int 10) 1;
    record "Zeta" (Some "ipo") (Some "Games") (Some "DEU")
      "2009-01-01" "2009-01-01" "2012-01-01" (of_int 7000000) 4 ].

Definition df : EDA.DataFrame := map (EDA.preprocess to_datetime) records.

(** The row of [survival_df] for the category 'Technology': two startups, one
    of them operating. *)
Definition technology_row : EDA.SurvivalRow :=
  {| EDA.Category := "Technology";
     EDA.Total_Startups := 2;
     EDA.Operating_Count := Finite 1;
     EDA.Survival_Rate := Finite (100 # 2) |}.

(** The first row of the sample frame, as a row of [df_life]. *)
Definition alpha_life : EDA.LifeRow :=
  EDA.with_lifespan_years
    (EDA.preprocess to_datetime
       (record "Alpha" (Some "operating") (Some "Technology") (Some "USA")
          "2010-01-01" "2011-01-01" "2013-01-01" (of_int 1000000) 2)).

Definition unchecked : EDA.Widgets :=
  {| EDA.show_raw_data_preview := false; EDA.show_outliers := false |}.

Definition checked : EDA.Widgets :=
  {| EDA.show_raw_data_preview := false; EDA.show_outliers := true |}.

End Sample.

(** * Properties *)

(** ** Facts about the dataframe operations *)

Section SortFacts.
Context {A : Type} (leb : A -> A -> bool).

Lemma insert_perm (x : A) (l : list A) : Permutation (Pd.insert leb x l) (x :: l).
Proof.
  induction l as [|y t IH]; simpl.
  - reflexivity.
  - destruct (leb x y).
    + reflexivity.
    + rewrite IH. apply perm_swap.
Qed.

Lemma sort_perm (l : list A) : Permutation (Pd.sort leb l) l.
Proof.
  induction l as [|x t IH]; simpl.
  - constructor.
  - rewrite insert_perm. now constructor.
Qed.

Lemma In_sort (x : A) (l : list A) : In x (Pd.sort leb l) <-> In x l.
Proof.
  split; apply Permutation_in; [|symmetry]; apply sort_perm.
Qed.

Lemma length_sort (l : list A) : List.length (Pd.sort leb l) = List.length l.
Proof. apply Permutation_length, sort_perm. Qed.

Hypothesis leb_total : forall x y, leb x y = false -> leb y x = true.
Hypothesis leb_trans : forall x y z, leb x y = true -> leb y z = true -> leb x z = true.

Lemma insert_sorted (x : A) (l : list A) :
  StronglySorted (fun a b => leb a b = true) l ->
  StronglySorted (fun a b => leb a b = true) (Pd.insert leb x l).
Proof.
  induction 1 as [|y t Hs IH Hall]; simpl.
  - repeat constructor.
  - destruct (leb x y) eqn:E.
    + constructor; [now constructor|].
      constructor; [exact E|].
      rewrite Forall_forall in *. intros z Hz. eauto.
    + constructor; [exact IH|].
      rewrite Forall_forall in *. intros z Hz.
      apply (Permutation_in _ (insert_perm x t)) in Hz.
      destruct Hz as [<-|Hz]; auto.
Qed.

Lemma sort_sorted (l : list A) :
  StronglySorted (fun a b => leb a b = true) (Pd.sort leb l).
Proof.
  induction l; simpl; [constructor | now apply insert_sorted].
Qed.

End SortFacts.

(** In a sorted list, everything kept by [firstn] comes before (in the order)
    everything it leaves out. *)
Lemma firstn_dominates {A : Type} (R : A -> A -> Prop) (n : nat) (l : list A) :
  StronglySorted R l ->
  forall x y, In x (firstn n l) -> In y l -> ~ In y (firstn n l) -> R x y.
Proof.
  intros Hs. revert n.
  induction Hs as [|a t Hs IH Hall]; intros n x y Hx Hy Hny.
  - now destruct n.
  - destruct n as [|n]; [contradiction|]. simpl in *.
    destruct Hy as [->|Hy]; [tauto|].
    destruct Hx as [<-|Hx].
    + rewrite Forall_forall in Hall. auto.
    + apply (IH n); tauto.
Qed.

Section KeyFacts.
Context {K : Type} (eqb : K -> K -> bool).
Hypothesis eqb_eq : forall x y, eqb x y = true <-> x = y.

Lemma eqb_refl' (x : K) : eqb x x = true.
Proof. now apply eqb_eq. Qed.

Lemma In_unique (x : K) (l : list K) : In x (Pd.unique eqb l) <-> In x l.
Proof.
  induction l as [|y t IH]; simpl; [tauto|].
  rewrite filter_In, IH.
  destruct (eqb y x) eqn:E; simpl.
  - apply eqb_eq in E. intuition congruence.
  - assert (y <> x) by (intros ->; rewrite eqb_refl' in E; discriminate).
    intuition congruence.
Qed.

Lemma NoDup_filter' (f : K -> bool) (l : list K) : NoDup l -> NoDup (filter f l).
Proof.
  induction 1 as [|x t Hx Hn IH]; simpl; [constructor|].
  destruct (f x); [constructor|]; auto.
  rewrite filter_In; tauto.
Qed.

Lemma NoDup_unique (l : list K) : NoDup (Pd.unique eqb l).
Proof.
  induction l as [|y t IH]; simpl; constructor.
  - rewrite filter_In, eqb_refl'. simpl. intros [_ H]; discriminate.
  - now apply NoDup_filter'.
Qed.

Lemma count_pos (k : K) (l : list K) : In k l -> (1 <= Pd.count eqb k l)%nat.
Proof.
  unfold Pd.count. induction l as [|y t IH]; simpl; [tauto|].
  intros [->|H].
  - rewrite eqb_refl'. simpl. lia.
  - specialize (IH H). destruct (eqb k y); simpl; lia.
Qed.

Lemma count_zero (k : K) (l : list K) : ~ In k l -> Pd.count eqb k l = 0%nat.
Proof.
  unfold Pd.count. induction l as [|y t IH]; simpl; intros H; [reflexivity|].
  destruct (eqb k y) eqn:E.
  - apply eqb_eq in E. subst. tauto.
  - apply IH. tauto.
Qed.

End KeyFacts.

Lemma In_dropna {A : Type} (a : A) (l : list (option A)) :
  In a (Pd.dropna l) <-> In (Some a) l.
Proof.
  induction l as [|[b|] t IH]; simpl; [tauto| |];
    rewrite IH; intuition congruence.
Qed.

Lemma by_count_desc_total (a b : string * nat) :
  Pd.by_count_desc a b = false -> Pd.by_count_desc b a = true.
Proof.
  unfold Pd.by_count_desc. rewrite Nat.leb_gt, Nat.leb_le. lia.
Qed.

Lemma by_count_desc_trans (a b c : string * nat) :
  Pd.by_count_desc a b = true -> Pd.by_count_desc b c = true ->
  Pd.by_count_desc a c = true.
Proof.
  unfold Pd.by_count_desc. rewrite !Nat.leb_le. lia.
Qed.

Lemma In_value_counts (k : string) (n : nat) (col : list (option string)) :
  In (k, n) (Pd.value_counts col) <->
  In (Some k) col /\ n = Pd.count String.eqb k (Pd.dropna col).
Proof.
  unfold Pd.value_counts. rewrite In_sort, in_map_iff. split.
  - intros (k' & E & H). inversion E; subst.
    rewrite (In_unique _ String.eqb_eq), In_dropna in H. now split.
  - intros (H & ->). exists k. split; [reflexivity|].
    now rewrite (In_unique _ String.eqb_eq), In_dropna.
Qed.

Lemma NoDup_value_counts (col : list (option string)) :
  NoDup (Pd.index (Pd.value_counts col)).
Proof.
  unfold Pd.index, Pd.value_counts.
  eapply Permutation_NoDup.
  - symmetry. apply Permutation_map, sort_perm.
  - rewrite map_map. simpl. rewrite map_id.
    apply (NoDup_unique _ String.eqb_eq).
Qed.

Lemma merge_left_In (left right : list (string * nat)) (m : string * nat * float64) :
  NoDup (Pd.index right) ->
  In m (Pd.merge_left left right) ->
  In (fst m) left /\
  ((snd m = NaN /\ forall n, ~ In (fst (fst m), n) right) \/
   (exists n, snd m = of_count n /\ In (fst (fst m), n) right)).
Proof.
  intros Hnd Hm. unfold Pd.merge_left in Hm.
  apply in_flat_map in Hm. destruct Hm as ([k t] & Hl & Hm). simpl in Hm.
  destruct (filter (fun r => String.eqb (fst r) k) right) as [|r ms] eqn:E.
  - destruct Hm as [<-|[]]. simpl. split; [exact Hl|]. left. split; [reflexivity|].
    intros n Hn.
    assert (H : In (k, n) (filter (fun r => String.eqb (fst r) k) right)).
    { apply filter_In. split; [exact Hn|]. apply String.eqb_refl. }
    rewrite E in H. exact H.
  - change (In m (map (fun r0 : string * nat => (k, t, of_count (snd r0))) (r :: ms)))
      in Hm.
    apply in_map_iff in Hm. destruct Hm as ([k' n] & <- & Hin). simpl.
    split; [exact Hl|]. right. exists n. split; [reflexivity|].
    rewrite <- E in Hin. apply filter_In in Hin. destruct Hin as [Hin Hk].
    simpl in Hk. apply String.eqb_eq in Hk. now subst.
Qed.


(** ** Facts about the script's tables *)

Lemma count_field (field : EDA.Row -> option string) (v : string)
  (df : EDA.DataFrame) :
  Pd.count String.eqb v (Pd.dropna (map field df)) = EDA.rows_with field v df.
Proof.
  unfold Pd.count, EDA.rows_with.
  induction df as [|r t IH]; simpl; [reflexivity|].
  destruct (field r) as [x|]; simpl; [|exact IH].
  rewrite (String.eqb_sym v x). destruct (String.eqb x v); simpl; congruence.
Qed.

Lemma count_category (c : string) (df : EDA.DataFrame) :
  Pd.count String.eqb c (Pd.dropna (map EDA.category df)) = EDA.rows_in_category c df.
Proof. apply count_field. Qed.

Lemma count_operating (c : string) (df : EDA.DataFrame) :
  Pd.count String.eqb c
    (Pd.dropna
       (map EDA.category
          (filter (fun r => Pd.eq_str (EDA.status r) "operating") df)))
  = EDA.operating_in_category c df.
Proof.
  unfold Pd.count, EDA.operating_in_category.
  induction df as [|r t IH]; simpl; [reflexivity|].
  destruct (Pd.eq_str (EDA.status r) "operating"); simpl.
  - destruct (EDA.category r) as [v|]; simpl; [|exact IH].
    rewrite (String.eqb_sym c v), andb_true_r.
    destruct (String.eqb v c); simpl; congruence.
  - rewrite andb_false_r. exact IH.
Qed.

Lemma operating_le_rows (c : string) (df : EDA.DataFrame) :
  (EDA.operating_in_category c df <= EDA.rows_in_category c df)%nat.
Proof.
  unfold EDA.operating_in_category, EDA.rows_in_category, EDA.rows_with.
  induction df as [|r t IH]; simpl; [lia|].
  destruct (Pd.eq_str (EDA.category r) c); simpl; [|exact IH].
  destruct (Pd.eq_str (EDA.status r) "operating"); simpl; lia.
Qed.

Lemma rows_in_category_pos (c : string) (df : EDA.DataFrame) :
  In (Some c) (map EDA.category df) -> (1 <= EDA.rows_in_category c df)%nat.
Proof.
  intros H. rewrite <- count_category.
  apply (count_pos _ String.eqb_eq). now apply In_dropna.
Qed.

Lemma operating_zero_not_listed (c : string) (df : EDA.DataFrame) :
  (forall n, ~ In (c, n) (EDA.operating_counts df)) ->
  EDA.operating_in_category c df = 0%nat.
Proof.
  intros H. rewrite <- count_operating.
  apply (count_zero _ String.eqb_eq). intros Hin.
  apply (H (Pd.count String.eqb c
              (Pd.dropna
                 (map EDA.category
                    (filter (fun r => Pd.eq_str (EDA.status r) "operating") df))))).
  unfold EDA.operating_counts. apply In_value_counts.
  split; [now apply In_dropna | reflexivity].
Qed.

(** Every row of [survival_df] in terms of the rows of the frame. *)
Lemma survival_row_counts (df : EDA.DataFrame) (row : EDA.SurvivalRow) :
  In row (EDA.survival_df df) ->
  In (Some (EDA.Category row)) (map EDA.category df) /\
  EDA.Total_Startups row = EDA.rows_in_category (EDA.Category row) df /\
  EDA.Operating_Count row
  = of_count (EDA.operating_in_category (EDA.Category row) df) /\
  EDA.Survival_Rate row
  = fmul (fdiv (EDA.Operating_Count row) (of_count (EDA.Total_Startups row)))
         (of_int 100).
Proof.
  unfold EDA.survival_df. intros H.
  apply in_map_iff in H. destruct H as ([[c t] o] & <- & Hm).
  apply merge_left_In in Hm; [|apply NoDup_value_counts].
  destruct Hm as (Hl & Ho). simpl in Hl, Ho.
  unfold EDA.category_totals in Hl. apply In_value_counts in Hl.
  destruct Hl as (Hc & Ht). rewrite count_category in Ht.
  unfold EDA.survival_row. simpl.
  repeat split; try assumption.
  destruct Ho as [(-> & Hno)|(n & -> & Hn)].
  - simpl. now rewrite operating_zero_not_listed.
  - simpl. unfold EDA.operating_counts in Hn. apply In_value_counts in Hn.
    destruct Hn as (_ & ->). now rewrite count_operating.
Qed.


Lemma fdiv_finite (a b : Q) :
  (0 < b)%Q -> fdiv (Finite a) (Finite b) = Finite (a / b).
Proof.
  intros Hb. simpl.
  destruct (b ?= 0)%Q eqn:E; try reflexivity.
  apply Qeq_alt in E. rewrite E in Hb. now apply Qlt_irrefl in Hb.
Qed.

Lemma of_count_pos (n : nat) : (1 <= n)%nat -> (0 < inject_Z (Z.of_nat n))%Q.
Proof.
  intros H. change 0%Q with (inject_Z 0). rewrite <- Zlt_Qlt. lia.
Qed.

(** ** Survival rates *)

Lemma survival_rate_value (df : EDA.DataFrame) (row : EDA.SurvivalRow) :
  In row (EDA.survival_df df) ->
  EDA.Survival_Rate row
  = Finite (inject_Z (Z.of_nat (EDA.operating_in_category (EDA.Category row) df))
            / inject_Z (Z.of_nat (EDA.rows_in_category (EDA.Category row) df))
            * inject_Z 100).
Proof.
  intros H. destruct (survival_row_counts df row H) as (Hc & Ht & Ho & Hr).
  rewrite Hr, Ho, Ht. unfold of_count, of_int.
  rewrite fdiv_finite; [reflexivity|].
  apply of_count_pos, rows_in_category_pos, Hc.
Qed.



(** C4. The survival rate of every row of [survival_df] is a percentage:
    the operating count is a count that does not exceed the total, and the
    rate lies between 0 and 100. *)
Theorem survival_rate_is_percentage (df : EDA.DataFrame) (row : EDA.SurvivalRow) :
  In row (EDA.survival_df df) ->
  (exists op, EDA.Operating_Count row = of_count op /\
              (op <= EDA.Total_Startups row)%nat) /\
  exists q, EDA.Survival_Rate row = Finite q /\ 0 <= q /\ q <= 100.
Proof.
  intros H. destruct (survival_row_counts df row H) as (Hc & Ht & Ho & _).
  pose proof (operating_le_rows (EDA.Category row) df) as Hle.
  pose proof (rows_in_category_pos _ _ Hc) as Hpos.
  split.
  - eexists. split; [exact Ho|]. now rewrite Ht.
  - eexists. split; [apply survival_rate_value, H|].
    set (op := EDA.operating_in_category (EDA.Category row) df) in *.
    set (tot := EDA.rows_in_category (EDA.Category row) df) in *.
    assert (H0 : 0 <= inject_Z (Z.of_nat op) / inject_Z (Z.of_nat tot)).
    { apply Qle_shift_div_l; [now apply of_count_pos|].
      rewrite Qmult_0_l. change 0 with (inject_Z 0). rewrite <- Zle_Qle. lia. }
    assert (H1 : inject_Z (Z.of_nat op) / inject_Z (Z.of_nat tot) <= 1).
    { apply Qle_shift_div_r; [now apply of_count_pos|].
      rewrite Qmult_1_l. rewrite <- Zle_Qle. lia. }
    change (inject_Z 100) with 100.
    split; lra.
Qed.

Lemma survival_rate_is_percentage_witness :
  In Sample.technology_row (EDA.survival_df Sample.df) /\
  exists q, EDA.Survival_Rate Sample.technology_row = Finite q /\ 0 <= q /\ q <= 100.
Proof.
  assert (H : In Sample.technology_row (EDA.survival_df Sample.df))
    by (vm_compute; tauto).
  split; [exact H|].
  apply (survival_rate_is_percentage Sample.df Sample.technology_row H).
Defined.

(** C7. The divisor of the survival rate is never zero: the category of
    every row of [survival_df] is an entry of value_counts of the category
    column, its Total_Startups is at least 1, and the quotient
    Operating_Count / Total_Startups is a finite number. *)
Theorem survival_division_defined (df : EDA.DataFrame) (row : EDA.SurvivalRow) :
  In row (EDA.survival_df df) ->
  In (EDA.Category row, EDA.Total_Startups row)
     (Pd.value_counts (map EDA.category df)) /\
  (1 <= EDA.Total_Startups row)%nat /\
  is_finite (fdiv (EDA.Operating_Count row) (of_count (EDA.Total_Startups row)))
  = true.
Proof.
  intros H. destruct (survival_row_counts df row H) as (Hc & Ht & Ho & _).
  pose proof (rows_in_category_pos _ _ Hc) as Hpos.
  repeat split.
  - apply In_value_counts. split; [exact Hc|]. now rewrite count_category.
  - now rewrite Ht.
  - rewrite Ho. unfold of_count, of_int. rewrite fdiv_finite; [reflexivity|].
    apply of_count_pos. now rewrite Ht.
Qed.

Lemma survival_division_defined_witness :
  In Sample.technology_row (EDA.survival_df Sample.df) /\
  (1 <= EDA.Total_Startups Sample.technology_row)%nat.
Proof.
  assert (H : In Sample.technology_row (EDA.survival_df Sample.df))
    by (vm_compute; tauto).
  split; [exact H|].
  apply (survival_division_defined Sample.df Sample.technology_row H).
Defined.

(** ** Speed to funding *)

Lemma isin_In (values : list string) (cell : option string) :
  Pd.isin values cell = true <-> exists v, cell = Some v /\ In v values.
Proof.
  destruct cell as [v|]; simpl.
  - rewrite existsb_exists. split.
    + intros (x & Hx & E). apply String.eqb_eq in E. subst. eauto.
    + intros (x & E & Hx). inversion E; subst. exists x.
      split; [exact Hx | apply String.eqb_refl].
  - split; [discriminate | intros (v & E & _); discriminate].
Qed.


(** The frame keeps its row order through the two filters. *)
Lemma df_timing_in_order (df : EDA.DataFrame) :
  map EDA.timing_row (EDA.df_timing df)
  = filter (fun r => Pd.isin EDA.target_statuses (EDA.status r)
                     && EDA.ge0 (EDA.days_between (EDA.first_funding_at r)
                                                  (EDA.founded_at r))) df.
Proof.
  unfold EDA.df_timing. induction df as [|r t IH]; simpl; [reflexivity|].
  destruct (Pd.isin EDA.target_statuses (EDA.status r)); simpl; [|exact IH].
  destruct (EDA.ge0 _); simpl; now rewrite IH.
Qed.

(** ** Lifespan *)


Lemma df_life_rows (df : EDA.DataFrame) (l : EDA.LifeRow) :
  In l (EDA.df_life df) <->
  exists d,
    In (EDA.life_row l) df /\
    EDA.lifespan_days (EDA.life_row l) = Some d /\
    (0 < d)%Z /\
    EDA.lifespan_years l = Finite (inject_Z d / inject_Z 365).
Proof.
  unfold EDA.df_life. rewrite in_map_iff. split.
  - intros (r & <- & Hr). apply filter_In in Hr. destruct Hr as (Hr & Hd).
    simpl. destruct (EDA.lifespan_days r) as [d|] eqn:E; [|discriminate].
    exists d. simpl in Hd. apply Z.ltb_lt in Hd.
    repeat split; assumption.
  - intros (d & Hr & Hd & Hpos & Hy). destruct l as [r y]. simpl in *. subst y.
    exists r. split.
    + unfold EDA.with_lifespan_years. now rewrite Hd.
    + apply filter_In. split; [exact Hr|]. rewrite Hd. now apply Z.ltb_lt.
Qed.

(** ** The page *)

Section ScriptFacts.
Variable to_datetime : string -> option Z.

Local Abbreviation loaded records := (map (EDA.preprocess to_datetime) records).
Local Abbreviation page file w := (fst (EDA.script to_datetime file w)).



Lemma loaded_lifespan_days (records : list EDA.CsvRecord) (r : EDA.Row) :
  In r (loaded records) ->
  EDA.lifespan_days r = EDA.days_between (EDA.last_funding_at r) (EDA.founded_at r).
Proof.
  intros H. apply in_map_iff in H. destruct H as (c & <- & _). reflexivity.
Qed.


(** ** Loading *)


(** ** Determinism *)

Lemma lifespan_yaxis_blanked (w : EDA.Widgets) (b : bool) (df : EDA.DataFrame) :
  map EDA.without_lifespan_yaxis (EDA.bivariate (EDA.with_show_outliers b w) df)
  = map EDA.without_lifespan_yaxis (EDA.bivariate w df).
Proof. reflexivity. Qed.

Lemma analyses_blanked (w : EDA.Widgets) (b : bool) (df : EDA.DataFrame) :
  map EDA.without_lifespan_yaxis (fst (EDA.analyses (EDA.with_show_outliers b w) df))
  = map EDA.without_lifespan_yaxis (fst (EDA.analyses w df)) /\
  snd (EDA.analyses (EDA.with_show_outliers b w) df) = snd (EDA.analyses w df).
Proof.
  unfold EDA.analyses.
  destruct (EDA.int_of_float _) as [cap|e]; cbn [fst snd]; split; try reflexivity.
  all: rewrite !map_app, lifespan_yaxis_blanked; reflexivity.
Qed.

(** C6. A run is a function of what the read returned and of the two
    checkboxes: runs that agree on them show the same page and end the same
    way. Changing 'Show Outliers' leaves the outcome and every element of the
    page as it was, the y-axis settings of the lifespan figure apart; the
    tables status_counts, survival_df, df_timing and df_life depend on the
    frame alone. *)
Theorem run_is_deterministic (file : EDA.result (list EDA.CsvRecord))
  (w1 w2 : EDA.Widgets) :
  EDA.show_raw_data_preview w1 = EDA.show_raw_data_preview w2 ->
  EDA.show_outliers w1 = EDA.show_outliers w2 ->
  EDA.script to_datetime file w1 = EDA.script to_datetime file w2 /\
  forall b,
    snd (EDA.script to_datetime file (EDA.with_show_outliers b w1))
    = snd (EDA.script to_datetime file w1) /\
    map EDA.without_lifespan_yaxis (page file (EDA.with_show_outliers b w1))
    = map EDA.without_lifespan_yaxis (page file w1).
Proof.
  intros Hraw Hout. split.
  - destruct w1, w2. simpl in *. now subst.
  - intros b. unfold EDA.script.
    destruct (EDA.load_data to_datetime file) as [[df|]|e]; cbn [fst snd];
      try (split; reflexivity).
    destruct (analyses_blanked w1 b df) as (Hp & Ho).
    split; [exact Ho|]. now rewrite !map_app, Hp.
Qed.

End ScriptFacts.

(** ** Grouping, quantiles and maxima *)

Section GroupFacts.
Context {K R : Type} (eqb leb : K -> K -> bool) (key : R -> option K).
Hypothesis eqb_eq : forall x y, eqb x y = true <-> x = y.

Lemma groupby_keys (rows : list R) :
  map fst (Pd.groupby eqb leb key rows)
  = Pd.sort leb (Pd.unique eqb (Pd.dropna (map key rows))).
Proof.
  unfold Pd.groupby. rewrite map_map. simpl. apply map_id.
Qed.

Lemma In_groupby_key (k : K) (rows : list R) :
  In k (map fst (Pd.groupby eqb leb key rows)) <-> exists r, In r rows /\ key r = Some k.
Proof.
  rewrite groupby_keys, In_sort, (In_unique _ eqb_eq), In_dropna, in_map_iff.
  split; intros (r & H1 & H2); exists r; tauto.
Qed.

Lemma In_groupby (g : K * list R) (rows : list R) :
  In g (Pd.groupby eqb leb key rows) <->
  (exists r, In r rows /\ key r = Some (fst g)) /\
  snd g = filter (fun r => match key r with
                           | Some k' => eqb k' (fst g)
                           | None => false
                           end) rows.
Proof.
  rewrite <- In_groupby_key, groupby_keys. unfold Pd.groupby.
  rewrite in_map_iff. split.
  - intros (k & <- & Hk). now split.
  - intros (Hk & Hg). exists (fst g). split; [|exact Hk].
    destruct g as [k rs]. simpl in *. now subst.
Qed.

Lemma NoDup_groupby_keys (rows : list R) :
  NoDup (map fst (Pd.groupby eqb leb key rows)).
Proof.
  rewrite groupby_keys.
  eapply Permutation_NoDup; [symmetry; apply sort_perm|].
  apply (NoDup_unique _ eqb_eq).
Qed.

End GroupFacts.


Lemma notna_finite (l : list float64) : all_finite l -> Pd.notna l = l.
Proof.
  unfold Pd.notna. induction 1 as [|x t Hx _ IH]; simpl; [reflexivity|].
  destruct x; try discriminate. simpl. now rewrite IH.
Qed.




(** ** The zoomed lifespan axis *)


Lemma df_life_finite (df : EDA.DataFrame) (l : EDA.LifeRow) :
  In l (EDA.df_life df) -> is_finite (EDA.lifespan_years l) = true.
Proof.
  intros H. apply df_life_rows in H. destruct H as (d & _ & _ & _ & ->). reflexivity.
Qed.

Lemma status_group_finite (df : EDA.DataFrame) (s : string) :
  all_finite (EDA.status_group s (EDA.df_life df)).
Proof.
  unfold all_finite, EDA.status_group. rewrite Forall_forall.
  intros x Hx. apply in_map_iff in Hx. destruct Hx as (l & <- & Hl).
  apply filter_In in Hl. now apply (df_life_finite df).
Qed.

Lemma status_group_nonempty (life : list EDA.LifeRow) (s : string) :
  (exists l, In l life /\ EDA.life_status l = Some s) -> EDA.status_group s life <> [].
Proof.
  intros (l & Hl & Hs) E.
  assert (H : In (EDA.lifespan_years l) (EDA.status_group s life)).
  { unfold EDA.status_group. apply in_map, filter_In. split; [exact Hl|].
    rewrite Hs. simpl. apply String.eqb_refl. }
  rewrite E in H. exact H.
Qed.



Section LifespanAxis.
Variable to_datetime : string -> option Z.


End LifespanAxis.


(** ** The heat map *)

Lemma In_firstn {A : Type} (n : nat) (l : list A) (x : A) :
  In x (firstn n l) -> In x l.
Proof.
  intros H. rewrite <- (firstn_skipn n l). apply in_or_app. now left.
Qed.

Lemma NoDup_firstn' {A : Type} (n : nat) (l : list A) : NoDup l -> NoDup (firstn n l).
Proof.
  intros H. rewrite <- (firstn_skipn n l) in H. now apply NoDup_app_remove_r in H.
Qed.

(** [value_counts().nlargest(n).index] holds the [n] most frequent values. *)
Lemma nlargest_most_frequent (n : nat) (field : EDA.Row -> option string)
  (df : EDA.DataFrame) :
  EDA.most_frequent n field df
    (Pd.index (Pd.nlargest n (Pd.value_counts (map field df)))).
Proof.
  unfold EDA.most_frequent, Pd.index, Pd.nlargest.
  set (vc := Pd.value_counts (map field df)).
  set (sorted := Pd.sort Pd.by_count_desc vc).
  assert (Hperm : Permutation sorted vc) by apply sort_perm.
  assert (Hin : forall v m, In (v, m) sorted <->
                            In (Some v) (map field df) /\ m = EDA.rows_with field v df).
  { intros v m. unfold sorted. rewrite In_sort. unfold vc.
    rewrite In_value_counts, count_field. reflexivity. }
  assert (Hfield : forall v, In (Some v) (map field df) <->
                             exists r, In r df /\ field r = Some v).
  { intros v. rewrite in_map_iff. split; intros (r & H1 & H2); exists r; tauto. }
  split; [|split; [|split]].
  - rewrite <- firstn_map. apply NoDup_firstn'.
    eapply Permutation_NoDup.
    + symmetry. apply Permutation_map, Hperm.
    + apply NoDup_value_counts.
  - rewrite length_map, length_firstn. unfold sorted. rewrite length_sort.
    unfold vc, Pd.value_counts. now rewrite length_sort, length_map.
  - intros v Hv. apply in_map_iff in Hv. destruct Hv as ([v' m] & <- & Hv).
    apply In_firstn in Hv. apply Hin in Hv. now apply Hfield.
  - intros v v' Hv Hv' Hout.
    apply in_map_iff in Hv. destruct Hv as ([v0 m] & <- & Hv). simpl.
    pose proof (proj1 (Hin _ _) (In_firstn _ _ _ Hv)) as (_ & Hm).
    assert (Hv'' : In (v', EDA.rows_with field v' df) sorted).
    { apply Hin. split; [now apply Hfield | reflexivity]. }
    assert (Hnot : ~ In (v', EDA.rows_with field v' df) (firstn n sorted)).
    { intros H. apply Hout. apply in_map_iff. now exists (v', EDA.rows_with field v' df). }
    pose proof (firstn_dominates (fun a b => Pd.by_count_desc a b = true) n sorted
                  (sort_sorted Pd.by_count_desc by_count_desc_total
                     by_count_desc_trans vc)
                  _ _ Hv Hv'' Hnot) as Hdom.
    unfold Pd.by_count_desc in Hdom. simpl in Hdom. apply Nat.leb_le in Hdom.
    now rewrite <- Hm.
Qed.






Section HeatMap.
Variable to_datetime : string -> option Z.


End HeatMap.

Lemma run_is_deterministic_witness :
  EDA.script Sample.to_datetime (EDA.Return Sample.records) Sample.unchecked
  = EDA.script Sample.to_datetime (EDA.Return Sample.records)
      (EDA.with_show_outliers false Sample.checked).
Proof.
  apply (run_is_deterministic Sample.to_datetime (EDA.Return Sample.records)
           Sample.unchecked (EDA.with_show_outliers false Sample.checked));
    reflexivity.
Defined.

(** ** The definitions at work on the sample file *)

Example sample_year_of_days :
  map EDA.year_of_days [0; -1; 11016; 11017; 18261; 18262]%Z
  = [1970; 1969; 2000; 2000; 2019; 2020]%Z.
Proof. reflexivity. Qed.

Example sample_load :
  map EDA.founded_year Sample.df
  = [Some 2010; Some 2010; Some 2009; None; Some 2011; Some 2009]%Z /\
  map EDA.lifespan_days Sample.df
  = [Some 1096; Some (-365); Some 2191; None; Some 0; Some 1095]%Z.
Proof. split; reflexivity. Qed.

Example sample_survival_df :
  EDA.survival_df Sample.df
  = [ Sample.technology_row;
      {| EDA.Category := "Health"; EDA.Total_Startups := 2;
         EDA.Operating_Count := Finite 1; EDA.Survival_Rate := Finite (100 # 2) |};
      {| EDA.Category := "Games"; EDA.Total_Startups := 1;
         EDA.Operating_Count := Finite 0; EDA.Survival_Rate := Finite 0 |} ].
Proof. vm_compute. reflexivity. Qed.

Example sample_df_timing :
  map (fun t => (EDA.name (EDA.timing_row t), EDA.days_to_first_funding t))
      (EDA.df_timing Sample.df)
  = [ (Some "Alpha", Some 365%Z); (Some "Gamma", Some 365%Z);
      (Some "Zeta", Some 0%Z) ].
Proof. vm_compute. reflexivity. Qed.

Example sample_df_life :
  map (fun l => (EDA.name (EDA.life_row l), EDA.lifespan_years l))
      (EDA.df_life Sample.df)
  = [ (Some "Alpha", Finite (1096 # 365)); (Some "Gamma", Finite (2191 # 365));
      (Some "Zeta", Finite (1095 # 365)) ].
Proof. vm_compute. reflexivity. Qed.

Example sample_quantile :
  finite_eqb (Pd.quantile (1 # 4) (map of_int [1; 2; 3; 4; 10]%Z)) 2 = true /\
  finite_eqb (Pd.quantile (95 # 100) (map of_int [10; 3; 1; 4; 2]%Z)) (88 # 10) = true /\
  Pd.quantile (1 # 2) [] = NaN.
Proof. repeat split; vm_compute; reflexivity. Qed.

Example sample_zoom_limit :
  finite_eqb (EDA.zoom_limit (EDA.df_life Sample.df)) ((2191 # 365) + 1) = true.
Proof. vm_compute. reflexivity. Qed.

Example sample_heatmap :
  EDA.counts (EDA.df_heatmap Sample.df)
  = [ ("DEU", "Games", 1%nat); ("GBR", "Health", 1%nat);
      ("USA", "Technology", 2%nat) ] /\
  finite_eqb (EDA.z_max (EDA.df_heatmap Sample.df)) (19 # 10) = true.
Proof. split; vm_compute; reflexivity. Qed.

Example sample_run_completes :
  snd (EDA.script Sample.to_datetime (EDA.Return Sample.records) Sample.checked)
  = EDA.Completed /\
  List.length
    (EDA.charts
       (fst (EDA.script Sample.to_datetime (EDA.Return Sample.records) Sample.checked)))
  = 15%nat.
Proof. split; vm_compute; reflexivity. Qed.

(** On a file with a header line and no record the heat-map caption raises:
    z_max is NaN and [int] of NaN is a ValueError, which nothing catches. *)
Example empty_file_run :
  snd (EDA.script Sample.to_datetime (EDA.Return []) Sample.checked)
  = EDA.Uncaught EDA.ValueError /\
  List.length
    (EDA.charts (fst (EDA.script Sample.to_datetime (EDA.Return []) Sample.checked)))
  = 12%nat.
Proof. split; vm_compute; reflexivity. Qed.

Example missing_file_run :
  EDA.script Sample.to_datetime (EDA.Raise EDA.FileNotFoundError) Sample.checked
  = ([ EDA.st_title "Startup Success Factors: Explanatory Data Analysis";
       EDA.st_markdown;
       EDA.st_error EDA.not_found_message ], EDA.Stopped).
Proof. reflexivity. Qed.

(** * Further properties of the script *)

(** ** Sorted lists and counts *)

Lemma sort_of_sorted {A : Type} (leb : A -> A -> bool) (l : list A) :
  StronglySorted (fun a b => leb a b = true) l -> Pd.sort leb l = l.
Proof.
  induction 1 as [|x t Hs IH Hall]; simpl; [reflexivity|].
  rewrite IH. destruct t as [|y t']; simpl; [reflexivity|].
  inversion Hall; subst. now rewrite H1.
Qed.

Lemma value_counts_sorted (col : list (option string)) :
  StronglySorted (fun a b => Pd.by_count_desc a b = true) (Pd.value_counts col).
Proof.
  unfold Pd.value_counts.
  apply sort_sorted; [apply by_count_desc_total | apply by_count_desc_trans].
Qed.

Lemma nlargest_is_prefix (n : nat) (col : list (option string)) :
  Pd.nlargest n (Pd.value_counts col) = firstn n (Pd.value_counts col).
Proof.
  unfold Pd.nlargest. now rewrite (sort_of_sorted _ _ (value_counts_sorted col)).
Qed.

Lemma list_sum_perm (l l' : list nat) : Permutation l l' -> list_sum l = list_sum l'.
Proof.
  induction 1; simpl; lia.
Qed.

Lemma length_filter_disjoint {A : Type} (f g : A -> bool) (l : list A) :
  (forall x, In x l -> f x = true -> g x = false) ->
  List.length (filter (fun x => f x || g x) l)
  = (List.length (filter f l) + List.length (filter g l))%nat.
Proof.
  induction l as [|x t IH]; simpl; intros H; [reflexivity|].
  assert (IH' := IH (fun y Hy => H y (or_intror Hy))).
  pose proof (H x (or_introl eq_refl)) as Hx.
  destruct (f x); simpl.
  - rewrite (Hx eq_refl). simpl. lia.
  - destruct (g x); simpl; lia.
Qed.

(** The counts of distinct keys add up to the number of entries that are
    one of the keys. *)
Lemma sum_counts (keys vals : list string) :
  NoDup keys ->
  list_sum (map (fun k => Pd.count String.eqb k vals) keys)
  = List.length (filter (fun v => existsb (String.eqb v) keys) vals).
Proof.
  induction 1 as [|k ks Hk Hnd IH]; simpl.
  - induction vals; simpl; auto.
  - rewrite IH. unfold Pd.count.
    rewrite <- (length_filter_disjoint (String.eqb k)).
    + f_equal. apply filter_ext. intros v. now rewrite (String.eqb_sym v k).
    + intros v _ E. apply String.eqb_eq in E. subst v.
      destruct (existsb (String.eqb k) ks) eqn:Ex; [|reflexivity].
      apply existsb_exists in Ex. destruct Ex as (y & Hy & E).
      apply String.eqb_eq in E. subst y. contradiction.
Qed.

Lemma value_counts_total (col : list (option string)) :
  list_sum (map snd (Pd.value_counts col)) = List.length (Pd.dropna col).
Proof.
  unfold Pd.value_counts.
  rewrite (list_sum_perm _ _ (Permutation_map snd (sort_perm _ _))).
  rewrite map_map. simpl.
  rewrite sum_counts; [|apply (NoDup_unique _ String.eqb_eq)].
  f_equal. apply forallb_filter_id. apply forallb_forall. intros v Hv.
  apply existsb_exists. exists v. split; [|apply String.eqb_refl].
  now apply (In_unique _ String.eqb_eq).
Qed.

Lemma length_dropna_rows (field : EDA.Row -> option string) (df : EDA.DataFrame) :
  List.length (Pd.dropna (map field df))
  = List.length (filter (fun r => match field r with Some _ => true | None => false end) df).
Proof.
  induction df as [|r t IH]; simpl; [reflexivity|].
  destruct (field r); simpl; now rewrite IH.
Qed.

Lemma StronglySorted_impl {A : Type} (R S : A -> A -> Prop) (l : list A) :
  (forall a b, R a b -> S a b) -> StronglySorted R l -> StronglySorted S l.
Proof.
  intros HRS. induction 1 as [|x t Hs IH Hall]; constructor; [exact IH|].
  rewrite Forall_forall in *. auto.
Qed.

(** What [value_counts] of one column of the frame holds. *)
Lemma value_counts_of_field (field : EDA.Row -> option string) (df : EDA.DataFrame) :
  NoDup (map fst (Pd.value_counts (map field df))) /\
  (forall v n, In (v, n) (Pd.value_counts (map field df)) <->
     (exists r, In r df /\ field r = Some v) /\ n = EDA.rows_with field v df) /\
  (forall v n, In (v, n) (Pd.value_counts (map field df)) -> (1 <= n)%nat) /\
  StronglySorted (fun a b => (snd b <= snd a)%nat) (Pd.value_counts (map field df)) /\
  list_sum (map snd (Pd.value_counts (map field df)))
  = List.length
      (filter (fun r => match field r with Some _ => true | None => false end) df).
Proof.
  assert (Hin : forall v n, In (v, n) (Pd.value_counts (map field df)) <->
     (exists r, In r df /\ field r = Some v) /\ n = EDA.rows_with field v df).
  { intros v n. rewrite In_value_counts, count_field, in_map_iff.
    split; intros ((r & H1 & H2) & Hn); (split; [exists r; tauto | exact Hn]). }
  split; [apply NoDup_value_counts|]. split; [exact Hin|]. split; [|split].
  - intros v n H. apply Hin in H. destruct H as ((r & Hr & Hv) & ->).
    rewrite <- count_field. apply (count_pos _ String.eqb_eq).
    apply In_dropna, in_map_iff. now exists r.
  - eapply StronglySorted_impl; [|apply value_counts_sorted].
    intros a b H. now apply Nat.leb_le in H.
  - now rewrite value_counts_total, length_dropna_rows.
Qed.

(** X1. The pie chart's table has one entry per status that occurs, with the
    number of rows of that status (at least 1), largest count first, and the
    counts add up to the number of rows that have a status. *)
Theorem status_counts_partition (df : EDA.DataFrame) :
  NoDup (map fst (EDA.status_counts df)) /\
  (forall s n, In (s, n) (EDA.status_counts df) <->
     (exists r, In r df /\ EDA.status r = Some s) /\
     n = EDA.rows_with EDA.status s df) /\
  (forall s n, In (s, n) (EDA.status_counts df) -> (1 <= n)%nat) /\
  StronglySorted (fun a b => (snd b <= snd a)%nat) (EDA.status_counts df) /\
  list_sum (map snd (EDA.status_counts df))
  = List.length
      (filter (fun r => match EDA.status r with Some _ => true | None => false end)
         df).
Proof. apply value_counts_of_field. Qed.

(** X2. The table of the 'Top 15' bar chart is the first 15 entries of the
    category counts (all of them when there are fewer): its categories are
    the 15 most frequent ones and each entry carries the number of rows of
    its category. *)
Theorem top_cats_is_prefix_of_totals (df : EDA.DataFrame) :
  EDA.top_cats df = firstn 15 (EDA.category_totals df) /\
  (List.length (EDA.top_cats df) <= 15)%nat /\
  EDA.most_frequent 15 EDA.category df (map fst (EDA.top_cats df)) /\
  forall c n, In (c, n) (EDA.top_cats df) ->
    n = EDA.rows_in_category c df /\ (1 <= n)%nat.
Proof.
  assert (E : EDA.top_cats df = firstn 15 (EDA.category_totals df))
    by apply nlargest_is_prefix.
  split; [exact E|]. split; [|split].
  - rewrite E, length_firstn. lia.
  - apply (nlargest_most_frequent 15 EDA.category df).
  - intros c n H. rewrite E in H. apply In_firstn in H.
    destruct (value_counts_of_field EDA.category df) as (_ & Hin & Hpos & _).
    split; [now apply Hin in H | now apply (Hpos c)].
Qed.

(** ** The survival table *)

Lemma at_most_one_match (right : list (string * nat)) (k : string) :
  NoDup (Pd.index right) ->
  (List.length (filter (fun r => String.eqb (fst r) k) right) <= 1)%nat.
Proof.
  unfold Pd.index. induction right as [|[k' n] t IH]; simpl; intros H; [lia|].
  inversion H as [|? ? Hk Ht]; subst. specialize (IH Ht).
  destruct (String.eqb k' k) eqn:E; simpl; [|exact IH].
  apply String.eqb_eq in E. subst k'.
  destruct (filter (fun r => String.eqb (fst r) k) t) as [|[k2 n2] ms] eqn:F;
    simpl; [lia|].
  exfalso. apply Hk.
  assert (Hin : In (k2, n2) (filter (fun r => String.eqb (fst r) k) t))
    by (rewrite F; now left).
  apply filter_In in Hin. destruct Hin as (Hin & Ek). simpl in Ek.
  apply String.eqb_eq in Ek. subst k2.
  apply in_map_iff. now exists (k, n2).
Qed.

(** A left merge on a right frame without repeated keys keeps the left
    frame row for row. *)
Lemma merge_left_keeps_left (left right : list (string * nat)) :
  NoDup (Pd.index right) -> map fst (Pd.merge_left left right) = left.
Proof.
  intros Hnd. unfold Pd.merge_left.
  induction left as [|[k t] rest IH]; [reflexivity|].
  cbn [flat_map fst snd]. rewrite map_app, IH.
  change ((k, t) :: rest) with ([(k, t)] ++ rest). f_equal.
  pose proof (at_most_one_match right k Hnd) as Hlen.
  destruct (filter (fun r => String.eqb (fst r) k) right) as [|r [|r' ms]];
    simpl in *; try reflexivity. lia.
Qed.

Lemma survival_df_totals (df : EDA.DataFrame) :
  map (fun row => (EDA.Category row, EDA.Total_Startups row)) (EDA.survival_df df)
  = EDA.category_totals df.
Proof.
  unfold EDA.survival_df. rewrite map_map.
  rewrite <- (merge_left_keeps_left (EDA.category_totals df)
                (EDA.operating_counts df)) at 2;
    [|apply NoDup_value_counts].
  apply map_ext. now intros [[c t] o].
Qed.

Lemma survival_df_sorted (df : EDA.DataFrame) :
  StronglySorted (fun a b => (EDA.Total_Startups b <=? EDA.Total_Startups a)%nat = true)
    (EDA.survival_df df).
Proof.
  pose proof (value_counts_sorted (map EDA.category df)) as Hs.
  fold (EDA.category_totals df) in Hs. rewrite <- survival_df_totals in Hs.
  induction (EDA.survival_df df) as [|x t IH]; [constructor|].
  simpl in Hs. inversion Hs as [|? ? Ht Hall]; subst.
  constructor; [now apply IH|].
  rewrite Forall_forall in *. intros y Hy.
  exact (Hall _ (in_map _ _ _ Hy)).
Qed.

(** X3. The survival table has exactly one row per category of the category
    counts, in the same order and with the same totals: the left merge
    neither drops nor repeats a category, and the rows come with the largest
    Total_Startups first. *)
Theorem survival_df_one_row_per_category (df : EDA.DataFrame) :
  map (fun row => (EDA.Category row, EDA.Total_Startups row)) (EDA.survival_df df)
  = EDA.category_totals df /\
  NoDup (map EDA.Category (EDA.survival_df df)) /\
  List.length (EDA.survival_df df)
  = List.length (Pd.unique String.eqb (Pd.dropna (map EDA.category df))) /\
  StronglySorted (fun a b => (EDA.Total_Startups b <= EDA.Total_Startups a)%nat)
    (EDA.survival_df df).
Proof.
  pose proof (survival_df_totals df) as E.
  split; [exact E|]. split; [|split].
  - replace (map EDA.Category (EDA.survival_df df))
      with (map fst (EDA.category_totals df)).
    + apply NoDup_value_counts.
    + rewrite <- E, map_map. reflexivity.
  - rewrite <- (length_map (fun row => (EDA.Category row, EDA.Total_Startups row))), E.
    unfold EDA.category_totals, Pd.value_counts.
    now rewrite length_sort, length_map.
  - eapply StronglySorted_impl; [|apply survival_df_sorted].
    intros a b H. now apply Nat.leb_le in H.
Qed.

(** ** Quantiles of finite columns *)

Lemma all_finite_values (l : list float64) :
  all_finite l -> l = map Finite (finite_values l).
Proof.
  unfold finite_values. induction 1 as [|x t Hx _ IH]; simpl; [reflexivity|].
  destruct x; try discriminate. simpl. now rewrite <- IH.
Qed.

Lemma insert_map_finite (x : Q) (l : list Q) :
  Pd.insert fle (Finite x) (map Finite l) = map Finite (Pd.insert Qle_bool x l).
Proof.
  induction l as [|y t IH]; simpl; [reflexivity|].
  destruct (Qle_bool x y); simpl; [reflexivity | now rewrite IH].
Qed.

Lemma sort_map_finite (l : list Q) :
  Pd.sort fle (map Finite l) = map Finite (Pd.sort Qle_bool l).
Proof.
  induction l as [|x t IH]; simpl; [reflexivity|].
  now rewrite IH, insert_map_finite.
Qed.

Lemma nth_map_finite (s : list Q) (i : nat) :
  (i < List.length s)%nat -> nth i (map Finite s) NaN = Finite (nth i s 0).
Proof.
  intros H. rewrite (nth_indep _ NaN (Finite 0)) by now rewrite length_map.
  apply map_nth.
Qed.

Lemma Qle_bool_total (a b : Q) : Qle_bool a b = false -> Qle_bool b a = true.
Proof.
  intros H. apply Qle_bool_iff, Qlt_le_weak, Qnot_le_lt.
  intros Hab. apply Qle_bool_iff in Hab. congruence.
Qed.

Lemma Qle_bool_trans (a b c : Q) :
  Qle_bool a b = true -> Qle_bool b c = true -> Qle_bool a c = true.
Proof.
  rewrite !Qle_bool_iff. apply Qle_trans.
Qed.

Lemma sorted_values_ascending (l : list Q) : StronglySorted Qle (Pd.sort Qle_bool l).
Proof.
  eapply StronglySorted_impl; [|apply (sort_sorted Qle_bool Qle_bool_total Qle_bool_trans)].
  intros a b. apply Qle_bool_iff.
Qed.

Lemma nth_ascending (s : list Q) :
  StronglySorted Qle s ->
  forall i j, (i <= j)%nat -> (j < List.length s)%nat -> nth i s 0 <= nth j s 0.
Proof.
  induction 1 as [|x t Hs IH Hall]; intros i j Hij Hj; [simpl in Hj; lia|].
  destruct j as [|j]; [replace i with 0%nat by lia; apply Qle_refl|].
  destruct i as [|i]; simpl in *.
  - rewrite Forall_forall in Hall. apply Hall, nth_In. lia.
  - apply IH; lia.
Qed.

(** Where the interpolation reads the list: both positions are inside it,
    the lower one first, and the weight of the upper one is in [0, 1). *)
Lemma quantile_position (q : Q) (m : nat) :
  0 <= q -> q <= 1 ->
  let pos := q * inject_Z (Z.of_nat m) in
  (0 <= Qfloor pos <= Z.of_nat m)%Z /\
  0 <= pos - inject_Z (Qfloor pos) /\ pos - inject_Z (Qfloor pos) < 1.
Proof.
  intros Hq0 Hq1 pos.
  assert (Hm : 0 <= inject_Z (Z.of_nat m))
    by (change 0 with (inject_Z 0); rewrite <- Zle_Qle; lia).
  assert (Hpos0 : 0 <= pos) by (now apply Qmult_le_0_compat).
  assert (Hpos1 : pos <= inject_Z (Z.of_nat m)).
  { unfold pos. rewrite <- (Qmult_1_l (inject_Z (Z.of_nat m))) at 2.
    now apply Qmult_le_compat_r. }
  split; [split|split].
  - apply Qfloor_resp_le in Hpos0. exact Hpos0.
  - apply Qfloor_resp_le in Hpos1. now rewrite Qfloor_Z in Hpos1.
  - pose proof (Qfloor_le pos). lra.
  - pose proof (Qlt_floor pos) as H. rewrite inject_Z_plus in H.
    change (inject_Z 1) with 1 in H. lra.
Qed.

Lemma map_finite_all_finite (qs : list Q) : all_finite (map Finite qs).
Proof.
  unfold all_finite. rewrite Forall_forall. intros x Hx.
  apply in_map_iff in Hx. now destruct Hx as (v & <- & _).
Qed.

Lemma quantile_of_finite (q : Q) (qs : list Q) :
  0 <= q -> q <= 1 -> qs <> [] ->
  Pd.quantile q (map Finite qs) = Finite (interpolate q (Pd.sort Qle_bool qs)).
Proof.
  intros Hq0 Hq1 Hne. unfold Pd.quantile.
  rewrite (notna_finite _ (map_finite_all_finite qs)).
  destruct qs as [|y u]; [contradiction|].
  change (map Finite (y :: u)) with (Finite y :: map Finite u).
  cbv iota. change (Finite y :: map Finite u) with (map Finite (y :: u)).
  rewrite sort_map_finite, length_map. unfold interpolate.
  set (s := Pd.sort Qle_bool (y :: u)).
  assert (Hlen : List.length s = S (List.length u))
    by (unfold s; now rewrite length_sort).
  rewrite Hlen. replace (S (List.length u) - 1)%nat with (List.length u) by lia.
  destruct (quantile_position q (List.length u) Hq0 Hq1) as ((Hlo0 & Hlo1) & _).
  rewrite !nth_map_finite by lia. reflexivity.
Qed.

Lemma quantile_interpolate (q : Q) (col : list float64) :
  0 <= q -> q <= 1 -> col <> [] -> all_finite col ->
  Pd.quantile q col
  = Finite (interpolate q (Pd.sort Qle_bool (finite_values col))).
Proof.
  intros Hq0 Hq1 Hne Hfin.
  rewrite (all_finite_values _ Hfin) at 1.
  apply quantile_of_finite; try assumption.
  intros E. apply Hne. rewrite (all_finite_values _ Hfin), E. reflexivity.
Qed.

Lemma interpolate_between (q : Q) (s : list Q) (lb ub : Q) :
  0 <= q -> q <= 1 -> s <> [] -> StronglySorted Qle s ->
  (forall x, In x s -> lb <= x /\ x <= ub) ->
  lb <= interpolate q s /\ interpolate q s <= ub.
Proof.
  intros Hq0 Hq1 Hne Hs Hb. unfold interpolate.
  destruct s as [|x t]; [contradiction|].
  set (s := x :: t) in *.
  change (List.length s - 1)%nat with (List.length t - 0)%nat.
  rewrite Nat.sub_0_r.
  destruct (quantile_position q (List.length t) Hq0 Hq1) as ((Hlo0 & Hlo1) & Hf0 & Hf1).
  set (pos := q * inject_Z (Z.of_nat (List.length t))) in *.
  set (lo := Z.to_nat (Qfloor pos)).
  set (hi := Nat.min (lo + 1) (List.length t)).
  set (frac := pos - inject_Z (Qfloor pos)) in *.
  assert (Hlen : List.length s = S (List.length t)) by reflexivity.
  assert (Hlohi : nth lo s 0 <= nth hi s 0)
    by (apply nth_ascending; unfold hi, lo; try assumption; lia).
  assert (Hl : lb <= nth lo s 0) by (apply Hb, nth_In; unfold lo; lia).
  assert (Hu : nth hi s 0 <= ub) by (apply Hb, nth_In; unfold hi; lia).
  assert (H0 : 0 <= (nth hi s 0 - nth lo s 0) * frac)
    by (apply Qmult_le_0_compat; lra).
  assert (H1 : (nth hi s 0 - nth lo s 0) * frac <= (nth hi s 0 - nth lo s 0) * 1).
  { rewrite !(Qmult_comm (nth hi s 0 - nth lo s 0)).
    apply Qmult_le_compat_r; lra. }
  rewrite Qmult_1_r in H1. split; lra.
Qed.



(** ** The survival bar chart *)

Lemma fle_nan_last_total (x y : float64) :
  EDA.fle_nan_last x y = false -> EDA.fle_nan_last y x = true.
Proof.
  destruct x as [a|[]|], y as [b|[]|]; simpl; try reflexivity; try discriminate.
  apply Qle_bool_total.
Qed.

Lemma fle_nan_last_trans (x y z : float64) :
  EDA.fle_nan_last x y = true -> EDA.fle_nan_last y z = true ->
  EDA.fle_nan_last x z = true.
Proof.
  destruct x as [a|[]|], y as [b|[]|], z as [c|[]|]; simpl;
    try reflexivity; try discriminate.
  apply Qle_bool_trans.
Qed.

Lemma StronglySorted_impl_in {A : Type} (R S : A -> A -> Prop) (l : list A) :
  (forall a b, In a l -> In b l -> R a b -> S a b) ->
  StronglySorted R l -> StronglySorted S l.
Proof.
  intros HRS Hs. induction Hs as [|x t Hs IH Hall]; constructor.
  - apply IH. intros a b Ha Hb. apply HRS; now right.
  - rewrite Forall_forall in *. intros y Hy.
    apply HRS; [now left | now right | now apply Hall].
Qed.

Lemma survival_rate_bounds (df : EDA.DataFrame) (row : EDA.SurvivalRow) :
  In row (EDA.survival_df df) ->
  exists q, EDA.Survival_Rate row = Finite q /\ 0 <= q /\ q <= 100.
Proof.
  intros H. destruct (survival_row_counts df row H) as (Hc & _).
  pose proof (operating_le_rows (EDA.Category row) df) as Hle.
  pose proof (rows_in_category_pos _ _ Hc) as Hpos.
  eexists. split; [apply survival_rate_value, H|].
  set (op := EDA.operating_in_category (EDA.Category row) df) in *.
  set (tot := EDA.rows_in_category (EDA.Category row) df) in *.
  assert (H0 : 0 <= inject_Z (Z.of_nat op) / inject_Z (Z.of_nat tot)).
  { apply Qle_shift_div_l; [now apply of_count_pos|].
    rewrite Qmult_0_l. change 0 with (inject_Z 0). rewrite <- Zle_Qle. lia. }
  assert (H1 : inject_Z (Z.of_nat op) / inject_Z (Z.of_nat tot) <= 1).
  { apply Qle_shift_div_r; [now apply of_count_pos|].
    rewrite Qmult_1_l. rewrite <- Zle_Qle. lia. }
  change (inject_Z 100) with 100. split; lra.
Qed.

Lemma top_30_is_sorted_prefix (df : EDA.DataFrame) :
  EDA.top_30_categories df
  = Pd.sort (fun a b => EDA.fle_nan_last (EDA.Survival_Rate a) (EDA.Survival_Rate b))
      (firstn 30 (EDA.survival_df df)).
Proof.
  unfold EDA.top_30_categories.
  now rewrite (sort_of_sorted _ _ (survival_df_sorted df)).
Qed.

(** X4. The survival bar chart shows the first 30 rows of the survival table
    (all of them when there are fewer), which are the categories with the
    most startups, reordered by ascending survival rate; every bar lies
    inside the fixed x-axis range [0, 110]. *)
Theorem top_30_categories_selected_and_sorted (df : EDA.DataFrame) :
  Permutation (EDA.top_30_categories df) (firstn 30 (EDA.survival_df df)) /\
  (List.length (EDA.top_30_categories df) <= 30)%nat /\
  StronglySorted
    (fun a b => fle (EDA.Survival_Rate a) (EDA.Survival_Rate b) = true)
    (EDA.top_30_categories df) /\
  (forall kept row,
     In kept (EDA.top_30_categories df) -> In row (EDA.survival_df df) ->
     ~ In row (EDA.top_30_categories df) ->
     (EDA.Total_Startups row <= EDA.Total_Startups kept)%nat) /\
  (forall row, In row (EDA.top_30_categories df) ->
     in_range EDA.survival_xaxis_range (EDA.Survival_Rate row) = true).
Proof.
  assert (Hperm : Permutation (EDA.top_30_categories df)
                    (firstn 30 (EDA.survival_df df)))
    by (rewrite top_30_is_sorted_prefix; apply sort_perm).
  assert (Hsub : forall row, In row (EDA.top_30_categories df) ->
                             In row (EDA.survival_df df)).
  { intros row H. apply (Permutation_in _ Hperm) in H. now apply In_firstn in H. }
  split; [exact Hperm|]. split; [|split; [|split]].
  - rewrite (Permutation_length Hperm), length_firstn. lia.
  - eapply StronglySorted_impl_in;
      [|rewrite top_30_is_sorted_prefix;
        apply (sort_sorted _ (fun a b => fle_nan_last_total _ _)
                 (fun a b c => fle_nan_last_trans _ _ _))].
    intros a b Ha Hb.
    destruct (survival_rate_bounds df a (Hsub a Ha)) as (qa & -> & _).
    destruct (survival_rate_bounds df b (Hsub b Hb)) as (qb & -> & _).
    simpl. tauto.
  - intros kept row Hk Hr Hout.
    apply (Permutation_in _ Hperm) in Hk.
    assert (Hout' : ~ In row (firstn 30 (EDA.survival_df df))).
    { intros H. apply Hout. apply (Permutation_in _ (Permutation_sym Hperm)), H. }
    pose proof (firstn_dominates _ 30 _ (survival_df_sorted df) kept row Hk Hr Hout')
      as H.
    now apply Nat.leb_le in H.
  - intros row H. destruct (survival_rate_bounds df row (Hsub row H)) as (q & -> & H0 & H1).
    unfold in_range, EDA.survival_xaxis_range. simpl.
    apply andb_true_iff. split; apply Qle_bool_iff; [exact H0|].
    change (inject_Z 110) with 110. lra.
Qed.

(** ** Funding by year founded *)

Lemma StronglySorted_filter {A : Type} (R : A -> A -> Prop) (f : A -> bool)
  (l : list A) :
  StronglySorted R l -> StronglySorted R (filter f l).
Proof.
  induction 1 as [|x t Hs IH Hall]; simpl; [constructor|].
  destruct (f x); [|exact IH]. constructor; [exact IH|].
  rewrite Forall_forall in *. intros y Hy. apply filter_In in Hy. now apply Hall.
Qed.

Lemma sorted_nodup_strict (l : list Z) :
  StronglySorted Z.le l -> NoDup l -> StronglySorted Z.lt l.
Proof.
  induction 1 as [|x t Hs IH Hall]; intros Hnd; constructor;
    inversion Hnd as [|? ? Hx Ht]; subst.
  - now apply IH.
  - rewrite Forall_forall in *. intros y Hy.
    specialize (Hall y Hy). assert (x <> y) by (intros ->; contradiction). lia.
Qed.

Lemma map_fst_filter {A B : Type} (p : A -> bool) (l : list (A * B)) :
  map fst (filter (fun m => p (fst m)) l) = filter p (map fst l).
Proof.
  induction l as [|x t IH]; simpl; [reflexivity|].
  destruct (p (fst x)); simpl; now rewrite IH.
Qed.

Lemma Z_leb_total (a b : Z) : (a <=? b)%Z = false -> (b <=? a)%Z = true.
Proof. rewrite Z.leb_gt, Z.leb_le. lia. Qed.

Lemma Z_leb_trans (a b c : Z) :
  (a <=? b)%Z = true -> (b <=? c)%Z = true -> (a <=? c)%Z = true.
Proof. rewrite !Z.leb_le. lia. Qed.

(** X5. The line chart has one point per founding year between 1990 and
    2023 that occurs in the frame, years strictly ascending, each with the
    mean funding of the rows founded that year; years outside the range and
    rows without a founding date give no point. *)
Theorem funding_trend_years (df : EDA.DataFrame) :
  StronglySorted Z.lt (map fst (EDA.funding_trend df)) /\
  forall y m, In (y, m) (EDA.funding_trend df) <->
    (1990 <= y <= 2023)%Z /\
    (exists r, In r df /\ EDA.founded_year r = Some y) /\
    m = Pd.mean (map EDA.funding_total_usd (filter (EDA.founded_in y) df)).
Proof.
  unfold EDA.funding_trend. split.
  - rewrite (map_fst_filter (fun y => (1990 <=? y)%Z && (y <=? 2023)%Z)).
    rewrite map_map. simpl.
    change (map (fun g : Z * list EDA.Row => fst g)
              (Pd.groupby Z.eqb Z.leb EDA.founded_year df))
      with (map fst (Pd.groupby Z.eqb Z.leb EDA.founded_year df)).
    apply StronglySorted_filter, sorted_nodup_strict.
    + rewrite groupby_keys.
      eapply StronglySorted_impl; [|apply (sort_sorted Z.leb Z_leb_total Z_leb_trans)].
      intros a b. apply Z.leb_le.
    + apply (NoDup_groupby_keys _ _ _ Z.eqb_eq).
  - intros y m. rewrite filter_In, in_map_iff. simpl.
    rewrite andb_true_iff, !Z.leb_le. split.
    + intros ((g & E & Hg) & Hy). inversion E; subst y m.
      apply (In_groupby _ _ _ Z.eqb_eq) in Hg. destruct Hg as (Hr & ->).
      repeat split; tauto.
    + intros (Hy & Hr & ->). split; [|exact Hy].
      exists (y, filter (EDA.founded_in y) df). split; [reflexivity|].
      apply (In_groupby _ _ _ Z.eqb_eq). now split.
Qed.

(** ** The two date filters in terms of the timestamps *)

Lemma whole_days_nonneg (a b : Z) : (0 <= (a - b) / EDA.ns_per_day <-> b <= a)%Z.
Proof.
  unfold EDA.ns_per_day.
  pose proof (Z.div_mod (a - b) 86400000000000 ltac:(lia)).
  pose proof (Z.mod_pos_bound (a - b) 86400000000000 ltac:(lia)).
  lia.
Qed.

Lemma whole_days_pos (a b : Z) :
  (0 < (a - b) / EDA.ns_per_day <-> b + EDA.ns_per_day <= a)%Z.
Proof.
  unfold EDA.ns_per_day.
  pose proof (Z.div_mod (a - b) 86400000000000 ltac:(lia)).
  pose proof (Z.mod_pos_bound (a - b) 86400000000000 ltac:(lia)).
  lia.
Qed.

(** X6. A row is in the speed-to-funding frame exactly when its status is
    one of the four target statuses and its first funding timestamp is
    present and not before its founding timestamp; a first funding at the
    founding timestamp itself is kept. *)
Theorem timing_keeps_funding_not_before_founding (df : EDA.DataFrame) (r : EDA.Row) :
  (exists t, In t (EDA.df_timing df) /\ EDA.timing_row t = r) <->
  In r df /\
  Pd.isin EDA.target_statuses (EDA.status r) = true /\
  exists a b, EDA.first_funding_at r = Some a /\ EDA.founded_at r = Some b /\
              (b <= a)%Z.
Proof.
  assert (E : (exists t, In t (EDA.df_timing df) /\ EDA.timing_row t = r) <->
              In r (map EDA.timing_row (EDA.df_timing df))).
  { rewrite in_map_iff. split; intros (t & H1 & H2); exists t; tauto. }
  rewrite E, df_timing_in_order, filter_In, andb_true_iff.
  unfold EDA.ge0, EDA.days_between.
  destruct (EDA.first_funding_at r) as [a|], (EDA.founded_at r) as [b|].
  - rewrite Z.leb_le, whole_days_nonneg. split.
    + intros (Hr & Hs & Hab). repeat split; try assumption. now exists a, b.
    + intros (Hr & Hs & a' & b' & Ea & Eb & Hab). inversion Ea; inversion Eb; subst.
      tauto.
  - split; [intros (_ & _ & H); discriminate|].
    intros (_ & _ & a' & b' & _ & H & _); discriminate.
  - split; [intros (_ & _ & H); discriminate|].
    intros (_ & _ & a' & b' & H & _); discriminate.
  - split; [intros (_ & _ & H); discriminate|].
    intros (_ & _ & a' & b' & H & _); discriminate.
Qed.

Section LifeThreshold.
Variable to_datetime : string -> option Z.

(** X7. A loaded row is in the lifespan frame exactly when both dates are
    present and the last funding is at least one whole day after the
    founding; its lifespan in years is then at least 1/365. *)
Theorem life_needs_one_whole_day (records : list EDA.CsvRecord) (r : EDA.Row) :
  ((exists l, In l (EDA.df_life (map (EDA.preprocess to_datetime) records)) /\
              EDA.life_row l = r) <->
   In r (map (EDA.preprocess to_datetime) records) /\
   exists a b, EDA.last_funding_at r = Some a /\ EDA.founded_at r = Some b /\
               (b + EDA.ns_per_day <= a)%Z) /\
  forall l, In l (EDA.df_life (map (EDA.preprocess to_datetime) records)) ->
    exists y, EDA.lifespan_years l = Finite y /\ (1 # 365) <= y.
Proof.
  split.
  - split.
    + intros (l & Hl & <-). apply df_life_rows in Hl.
      destruct Hl as (d & Hr & Hd & Hpos & _). split; [exact Hr|].
      rewrite (loaded_lifespan_days to_datetime records _ Hr) in Hd.
      unfold EDA.days_between in Hd.
      destruct (EDA.last_funding_at (EDA.life_row l)) as [a|]; [|discriminate].
      destruct (EDA.founded_at (EDA.life_row l)) as [b|]; [|discriminate].
      exists a, b. inversion Hd; subst d. apply whole_days_pos in Hpos. tauto.
    + intros (Hr & a & b & Ha & Hb & Hab).
      exists (EDA.with_lifespan_years r). split; [|reflexivity].
      apply df_life_rows. exists ((a - b) / EDA.ns_per_day)%Z. simpl.
      pose proof (loaded_lifespan_days to_datetime records _ Hr) as Hd.
      rewrite Ha, Hb in Hd. simpl in Hd. apply whole_days_pos in Hab.
      repeat split; try assumption.
      unfold EDA.with_lifespan_years. simpl. now rewrite Hd.
  - intros l Hl. apply df_life_rows in Hl. destruct Hl as (d & _ & _ & Hpos & ->).
    eexists. split; [reflexivity|].
    apply Qle_shift_div_l; [reflexivity|].
    assert (H : 1 <= inject_Z d)
      by (change 1 with (inject_Z 1); rewrite <- Zle_Qle; lia).
    assert (E : (1 # 365) * inject_Z 365 == 1) by reflexivity.
    rewrite E. exact H.
Qed.

End LifeThreshold.

(** ** Quartiles and the zoomed axis *)

Lemma In_finite_values (x : Q) (l : list float64) :
  In x (finite_values l) <-> In (Finite x) l.
Proof.
  unfold finite_values. rewrite in_flat_map. split.
  - intros (y & Hy & Hx). destruct y; simpl in Hx; try contradiction.
    destruct Hx as [<-|[]]. exact Hy.
  - intros H. exists (Finite x). split; [exact H | now left].
Qed.

Lemma sorted_finite_values_nonempty (col : list float64) :
  col <> [] -> all_finite col -> Pd.sort Qle_bool (finite_values col) <> [].
Proof.
  intros Hne Hfin E. apply Hne.
  apply (f_equal (@List.length Q)) in E. rewrite length_sort in E.
  rewrite (all_finite_values _ Hfin). destruct (finite_values col); [reflexivity|].
  discriminate.
Qed.

(** A quantile of a column of finite numbers lies between any two bounds of
    the column. *)
Lemma quantile_between (q : Q) (col : list float64) (lb ub : Q) :
  0 <= q -> q <= 1 -> col <> [] -> all_finite col ->
  (forall x, In (Finite x) col -> lb <= x /\ x <= ub) ->
  exists v, Pd.quantile q col = Finite v /\ lb <= v /\ v <= ub.
Proof.
  intros Hq0 Hq1 Hne Hfin Hb.
  rewrite (quantile_interpolate q col Hq0 Hq1 Hne Hfin).
  eexists. split; [reflexivity|].
  apply interpolate_between; try assumption.
  - now apply sorted_finite_values_nonempty.
  - apply sorted_values_ascending.
  - intros x Hx. apply In_sort, In_finite_values in Hx. now apply Hb.
Qed.







(** ** The heat-map caption and the end of the run *)






Section EndOfRun.
Variable to_datetime : string -> option Z.



End EndOfRun.

(** ** Frames restricted to the most frequent values *)

Lemma few_values_all_kept (n : nat) (field : EDA.Row -> option string)
  (df : EDA.DataFrame) :
  (List.length (Pd.unique String.eqb (Pd.dropna (map field df))) <= n)%nat ->
  forall r, In r df ->
    Pd.isin (Pd.index (Pd.nlargest n (Pd.value_counts (map field df)))) (field r)
    = EDA.has_value field r.
Proof.
  intros Hfew r Hr. unfold EDA.has_value.
  destruct (field r) as [v|] eqn:Ev; [|reflexivity].
  apply isin_In. exists v. split; [reflexivity|].
  destruct (nlargest_most_frequent n field df) as (Hnd & Hlen & Hsub & _).
  set (top := Pd.index (Pd.nlargest n (Pd.value_counts (map field df)))) in *.
  set (U := Pd.unique String.eqb (Pd.dropna (map field df))) in *.
  assert (Hincl : incl top U).
  { intros x Hx. destruct (Hsub x Hx) as (r' & Hr' & Ex).
    apply (In_unique _ String.eqb_eq), In_dropna, in_map_iff. now exists r'. }
  assert (Hback : incl U top) by (apply (NoDup_length_incl Hnd); [lia | exact Hincl]).
  apply Hback.
  apply (In_unique _ String.eqb_eq), In_dropna, in_map_iff. now exists r.
Qed.

Lemma filter_ext_in' {A : Type} (f g : A -> bool) (l : list A) :
  (forall x, In x l -> f x = g x) -> filter f l = filter g l.
Proof.
  induction l as [|x t IH]; simpl; intros H; [reflexivity|].
  rewrite (H x (or_introl eq_refl)), IH; [reflexivity|]. intros y Hy. apply H. now right.
Qed.

Lemma filter_filter {A : Type} (f g : A -> bool) (l : list A) :
  filter g (filter f l) = filter (fun x => f x && g x) l.
Proof.
  induction l as [|x t IH]; simpl; [reflexivity|].
  destruct (f x); simpl; [destruct (g x)|]; now rewrite IH.
Qed.

(** X10. When the frame has at most 10 distinct country codes, the country
    histogram is drawn from every row that has a country code: the top-10
    restriction removes only the rows without one. *)
Theorem few_countries_keep_every_located_row (df : EDA.DataFrame) :
  (List.length (Pd.unique String.eqb (Pd.dropna (map EDA.country_code df))) <= 10)%nat ->
  EDA.df_top_countries df = filter (EDA.has_value EDA.country_code) df.
Proof.
  intros Hfew. unfold EDA.df_top_countries, EDA.top_countries_list.
  apply filter_ext_in'. now apply few_values_all_kept.
Qed.

Lemma few_countries_keep_every_located_row_witness :
  (List.length (Pd.unique String.eqb (Pd.dropna (map EDA.country_code Sample.df)))
   <= 10)%nat /\
  EDA.df_top_countries Sample.df = filter (EDA.has_value EDA.country_code) Sample.df.
Proof.
  assert (H : (List.length
                 (Pd.unique String.eqb (Pd.dropna (map EDA.country_code Sample.df)))
               <= 10)%nat) by (vm_compute; lia).
  split; [exact H|].
  apply (few_countries_keep_every_located_row Sample.df H).
Defined.

(** X11. The country histogram's frame holds exactly the rows whose country
    code is one of the 10 most frequent ones, and the heat-map frame is that
    same frame restricted to the 10 most frequent categories of the whole
    frame: every heat-map row is a row of the country histogram. *)
Theorem heatmap_refines_top_countries (df : EDA.DataFrame) :
  (forall r, In r (EDA.df_top_countries df) <->
     In r df /\
     exists c, EDA.country_code r = Some c /\ In c (EDA.top_countries_list df)) /\
  EDA.most_frequent 10 EDA.country_code df (EDA.top_countries_list df) /\
  EDA.df_heatmap df
  = filter (fun r => Pd.isin (EDA.top_categories df) (EDA.category r))
      (EDA.df_top_countries df) /\
  (List.length (EDA.df_heatmap df) <= List.length (EDA.df_top_countries df))%nat.
Proof.
  assert (E : EDA.df_heatmap df
              = filter (fun r => Pd.isin (EDA.top_categories df) (EDA.category r))
                  (EDA.df_top_countries df)).
  { unfold EDA.df_heatmap, EDA.df_top_countries. now rewrite filter_filter. }
  split; [|split; [|split]].
  - intros r. unfold EDA.df_top_countries. now rewrite filter_In, isin_In.
  - apply nlargest_most_frequent.
  - exact E.
  - rewrite E. apply filter_length_le.
Qed.

(** X12. The sunburst is drawn from exactly the rows whose category is one
    of the bars of the 'Top 15' bar chart. *)
Theorem sunburst_shows_the_bar_chart_categories (df : EDA.DataFrame) (r : EDA.Row) :
  In r (EDA.df_sunburst df) <->
  In r df /\
  exists k, EDA.category r = Some k /\
            In (k, EDA.rows_in_category k df) (EDA.top_cats df).
Proof.
  unfold EDA.df_sunburst. rewrite filter_In, isin_In.
  assert (H : forall k, In k (EDA.top_15_cats df) <->
                        In (k, EDA.rows_in_category k df) (EDA.top_cats df)).
  { intros k. unfold EDA.top_15_cats, Pd.index. fold (EDA.top_cats df).
    rewrite in_map_iff. split.
    - intros ([k' n] & <- & Hin). simpl.
      replace (EDA.rows_in_category k' df) with n; [exact Hin|].
      unfold EDA.top_cats in Hin. rewrite nlargest_is_prefix in Hin.
      apply In_firstn, In_value_counts in Hin. destruct Hin as (_ & ->).
      apply count_category.
    - intros Hin. now exists (k, EDA.rows_in_category k df). }
  split.
  - intros (Hr & k & Hk & Hin). split; [exact Hr|]. exists k. split; [exact Hk|].
    now apply H.
  - intros (Hr & k & Hk & Hin). split; [exact Hr|]. exists k. split; [exact Hk|].
    now apply H.
Qed.

(** ** A status group whose rows all have the same lifespan *)

(** X13. When all rows of a status in the lifespan frame have the same
    lifespan (a status with a single startup, for one), both quartiles are
    that lifespan and the upper fence of the status is that lifespan too. *)
Theorem constant_group_has_no_whisker (df : EDA.DataFrame) (s : string) (v : Q) :
  (exists l, In l (EDA.df_life df) /\ EDA.life_status l = Some s) ->
  (forall l, In l (EDA.df_life df) -> EDA.life_status l = Some s ->
             EDA.lifespan_years l = Finite v) ->
  exists q1 q3 f,
    Pd.quantile (1 # 4) (EDA.status_group s (EDA.df_life df)) = Finite q1 /\
    Pd.quantile (3 # 4) (EDA.status_group s (EDA.df_life df)) = Finite q3 /\
    EDA.upper_fence s (EDA.df_life df) = Finite f /\
    q1 == v /\ q3 == v /\ f == v.
Proof.
  intros Hs Hconst.
  pose proof (status_group_nonempty _ _ Hs) as Hne.
  pose proof (status_group_finite df s) as Hfin.
  assert (Hb : forall x, In (Finite x) (EDA.status_group s (EDA.df_life df)) ->
                         v <= x /\ x <= v).
  { intros x Hx. unfold EDA.status_group in Hx. apply in_map_iff in Hx.
    destruct Hx as (l & E & Hl). apply filter_In in Hl. destruct Hl as (Hl & Hst).
    assert (Hst' : EDA.life_status l = Some s).
    { unfold Pd.eq_str in Hst. destruct (EDA.life_status l) as [s'|]; [|discriminate].
      apply String.eqb_eq in Hst. now subst. }
    rewrite (Hconst l Hl Hst') in E. inversion E. split; apply Qle_refl. }
  destruct (quantile_between (1 # 4) _ v v ltac:(discriminate) ltac:(discriminate)
              Hne Hfin Hb) as (q1 & E1 & H1a & H1b).
  destruct (quantile_between (3 # 4) _ v v ltac:(discriminate) ltac:(discriminate)
              Hne Hfin Hb) as (q3 & E3 & H3a & H3b).
  exists q1, q3, (q3 + (3 # 2) * (q3 + - q1)).
  assert (Hq1 : q1 == v) by (apply Qle_antisym; assumption).
  assert (Hq3 : q3 == v) by (apply Qle_antisym; assumption).
  repeat split; try assumption.
  - unfold EDA.upper_fence. rewrite E1, E3. reflexivity.
  - rewrite Hq1, Hq3. ring.
Qed.

Lemma constant_group_has_no_whisker_witness :
  (exists l, In l (EDA.df_life Sample.df) /\ EDA.life_status l = Some "acquired") /\
  exists q1 q3 f,
    Pd.quantile (1 # 4) (EDA.status_group "acquired" (EDA.df_life Sample.df))
    = Finite q1 /\
    Pd.quantile (3 # 4) (EDA.status_group "acquired" (EDA.df_life Sample.df))
    = Finite q3 /\
    EDA.upper_fence "acquired" (EDA.df_life Sample.df) = Finite f /\
    q1 == 2191 # 365 /\ q3 == 2191 # 365 /\ f == 2191 # 365.
Proof.
  assert (H : exists l, In l (EDA.df_life Sample.df) /\
                        EDA.life_status l = Some "acquired").
  { exists (nth 1 (EDA.df_life Sample.df) Sample.alpha_life).
    split; [vm_compute; tauto | reflexivity]. }
  split; [exact H|].
  apply (constant_group_has_no_whisker Sample.df "acquired" (2191 # 365) H).
  intros l Hl. vm_compute in Hl.
  destruct Hl as [<-|[<-|[<-|[]]]]; intros Hs; vm_compute in Hs;
    try discriminate; reflexivity.
Defined.

(** ** The raw data preview *)

Section Preview.
Variable to_datetime : string -> option Z.

(** X14. Ticking 'Show Raw Data Preview' adds one table right after the
    banner, holding the first five rows of the frame (all rows when there
    are fewer), and changes nothing else on the page nor how the run ends. *)
Theorem raw_preview_adds_one_table (records : list EDA.CsvRecord) (w : EDA.Widgets) :
  let df := map (EDA.preprocess to_datetime) records in
  let off := EDA.script to_datetime (EDA.Return records)
               (EDA.with_raw_data_preview false w) in
  let on := EDA.script to_datetime (EDA.Return records)
              (EDA.with_raw_data_preview true w) in
  exists rest,
    fst off = EDA.banner ++ rest /\
    fst on = EDA.banner ++ EDA.st_dataframe (firstn 5 df) :: rest /\
    snd on = snd off /\
    List.length (firstn 5 df) = Nat.min 5 (List.length records).
Proof.
  intros df off on. subst off on.
  unfold EDA.script, EDA.load_data, EDA.analyses. fold df.
  destruct (EDA.int_of_float _) as [cap|e]; cbn [fst snd];
    eexists; (split; [reflexivity|]); (split; [reflexivity|]);
    (split; [reflexivity|]); unfold df; now rewrite length_firstn, length_map.
Qed.

End Preview.

(** ** Extreme survival rates *)

(** X15. A category of the survival table shows 100 exactly when every one
    of its startups is operating, and 0 exactly when none is. *)
Theorem survival_rate_extremes (df : EDA.DataFrame) (row : EDA.SurvivalRow) :
  In row (EDA.survival_df df) ->
  exists q, EDA.Survival_Rate row = Finite q /\
    (q == 100 <->
     EDA.operating_in_category (EDA.Category row) df
     = EDA.rows_in_category (EDA.Category row) df) /\
    (q == 0 <-> EDA.operating_in_category (EDA.Category row) df = 0%nat).
Proof.
  intros H. destruct (survival_row_counts df row H) as (Hc & _).
  pose proof (rows_in_category_pos _ _ Hc) as Hpos.
  eexists. split; [apply survival_rate_value, H|].
  set (op := EDA.operating_in_category (EDA.Category row) df) in *.
  set (tot := EDA.rows_in_category (EDA.Category row) df) in *.
  pose proof (of_count_pos tot Hpos) as Ht.
  assert (Hne : ~ inject_Z (Z.of_nat tot) == 0)
    by (intros E; rewrite E in Ht; now apply Qlt_irrefl in Ht).
  pose proof (Qmult_div_r (inject_Z (Z.of_nat op)) _ Hne) as Hx.
  change (inject_Z 100) with 100.
  set (x := inject_Z (Z.of_nat op)) in *. set (t := inject_Z (Z.of_nat tot)) in *.
  split; split.
  - intros Hq. set (d := x / t) in *. assert (Hd : d == 1) by lra.
    rewrite Hd, Qmult_1_r in Hx. unfold x, t in Hx.
    apply (proj1 (inject_Z_injective _ _)) in Hx. lia.
  - intros E. unfold x, t. rewrite E. fold t. field. exact Hne.
  - intros Hq. set (d := x / t) in *. assert (Hd : d == 0) by lra.
    rewrite Hd, Qmult_0_r in Hx. unfold x in Hx.
    change 0 with (inject_Z 0) in Hx.
    apply (proj1 (inject_Z_injective _ _)) in Hx. lia.
  - intros E. unfold x. rewrite E. simpl. unfold Qdiv. rewrite !Qmult_0_l.
    reflexivity.
Qed.

Lemma survival_rate_extremes_witness :
  In Sample.technology_row (EDA.survival_df Sample.df) /\
  exists q, EDA.Survival_Rate Sample.technology_row = Finite q /\
    (q == 100 <->
     EDA.operating_in_category "Technology" Sample.df
     = EDA.rows_in_category "Technology" Sample.df).
Proof.
  assert (H : In Sample.technology_row (EDA.survival_df Sample.df))
    by (vm_compute; tauto).
  split; [exact H|].
  destruct (survival_rate_extremes Sample.df Sample.technology_row H)
    as (q & Hq & H100 & _).
  exists q. split; [exact Hq | exact H100].
Defined.
